(** * classifier.py: feature caching and bag-of-visual-words pipeline

    A shallow embedding of [src/classifier/classifier.py] (a Python 2 script)
    and the properties of its artifact store, vocabulary handling, histogram
    encoding, image listing and submission writer.

    Conventions of the embedding:
    - the file system is a finite map from full paths to file contents; the
      directories the script works in ([objects/train], [objects/test],
      [submissions]) are taken to exist;
    - a Python exception is a [Raise] result; the state reached before the
      exception is kept, as files written before a failure stay on disk;
    - the image, texture, descriptor and clustering libraries are external
      collaborators, gathered in the class [External];
    - console output ([print]) is not part of the state. *)

From Stdlib Require Import ZArith List Sorted Permutation Ascii String.
From Stdlib Require Import Floats.PrimFloat Floats.SpecFloat Floats.FloatOps.
From stdpp Require Import base gmap strings list sorting.

Local Open Scope string_scope.
Local Open Scope list_scope.

(** ** Python strings *)

Module Py.

(** [s.split(sep)] for a one-character separator: never empty. *)
Fixpoint split (sep : ascii) (s : string) : list string :=
  match s with
  | EmptyString => [EmptyString]
  | String c s' =>
      if Ascii.eqb c sep then EmptyString :: split sep s'
      else match split sep s' with
           | [] => [String c EmptyString]
           | w :: ws => String c w :: ws
           end
  end.

(** [s.split(sep)[-1]]; [split] never returns an empty list, so the default
    of [List.last] is never taken (lemma [split_nonempty]). *)
Definition last_segment (sep : ascii) (s : string) : string :=
  List.last (split sep s) EmptyString.

(** [s.endswith(suffix)]. *)
Definition endswith (s suffix : string) : bool :=
  let n := String.length s in
  let m := String.length suffix in
  if Nat.leb m n then String.eqb (String.substring (n - m) m s) suffix
  else false.

(** [template.format] applied to positional arguments, with [{}] fields only; a field
    without an argument raises IndexError, modelled as [None]. *)
Fixpoint format (template : string) (args : list string) : option string :=
  match template with
  | String "{" (String "}" rest) =>
      match args with
      | a :: args' => (fun r => a +:+ r) <$> format rest args'
      | [] => None
      end
  | String c rest => String c <$> format rest args
  | EmptyString => Some EmptyString
  end.

(** Removes [p] from the front of [s] when [s] starts with [p]. *)
Fixpoint strip_prefix (p s : string) : option string :=
  match p, s with
  | EmptyString, _ => Some s
  | String a p', String b s' =>
      if Ascii.eqb a b then strip_prefix p' s' else None
  | String _ _, EmptyString => None
  end.

(** A path component holds no separator. *)
Fixpoint no_slash (s : string) : bool :=
  match s with
  | EmptyString => true
  | String c s' => negb (Ascii.eqb c "/") && no_slash s'
  end.

(** [l.sort()] on strings, under the byte-wise lexicographic order of
    Python 2 [str] ([String.le]). The order is total and antisymmetric, so the
    sorted arrangement is unique and the sorting algorithm does not show. *)
Definition sort (l : list string) : list string := merge_sort String.le l.

End Py.

(** ** Floats and numpy *)

Module Np.

(** Conversion of a Python int to a C double (round to nearest). *)
Definition float_of_int (z : Z) : float :=
  SF2Prim (binary_normalize prec emax z 0 false).

(** [math.sqrt] is the IEEE 754 binary64 square root. *)
Definition math_sqrt (x : float) : float := PrimFloat.sqrt x.

(** Truncation toward zero of a finite float. *)
Definition trunc (f : float) : option Z :=
  match Prim2SF f with
  | S754_zero _ => Some 0%Z
  | S754_finite s m e =>
      let a := if (0 <=? e)%Z then Z.shiftl (Zpos m) e
               else Z.shiftr (Zpos m) (- e) in
      Some (if s then (- a)%Z else a)
  | _ => None
  end.

(** [a[::step]]: the rows at indices 0, step, 2*step, ... *)
Fixpoint slice_from {A} (skip step' : nat) (l : list A) : list A :=
  match l with
  | [] => []
  | x :: l' =>
      match skip with
      | O => x :: slice_from step' step' l'
      | S skip' => slice_from skip' step' l'
      end
  end.

Definition slice_step {A} (step : nat) (l : list A) : list A :=
  slice_from 0 (step - 1) l.

(** [np.concatenate(arrays)] along the first axis; an empty sequence of
    arrays is refused. *)
Definition np_concatenate {A} (arrays : list (list A)) : option (list A) :=
  match arrays with
  | [] => None
  | _ => Some (concat arrays)
  end.

(** [np.array(rows, dtype=float)] on integer rows: a matrix when the rows have
    one common length, refused otherwise. *)
Definition np_array_float (rows : list (list nat)) : option (list (list float)) :=
  match rows with
  | [] => Some []
  | r :: rest =>
      if forallb (fun r' => Nat.eqb (length r') (length r)) rest
      then Some (map (map (fun n => float_of_int (Z.of_nat n))) rows)
      else None
  end.

(** A two-dimensional array with its shape (a matrix with no row still has a
    column count). *)
Record Ndarray2 : Type := mkNdarray2 {
  shape : nat * nat;
  rows : list (list float)
}.

(** [a.transpose()]. *)
Definition transpose (a : Ndarray2) : Ndarray2 :=
  {| shape := (snd (shape a), fst (shape a));
     rows := map (fun j => map (fun r => nth j r 0%float) (rows a))
               (seq 0 (snd (shape a))) |}.

(** [np.bincount(c, minlength=n)]: entry [j] counts the occurrences of [j];
    the length is [max n (1 + max c)]. *)
Definition np_bincount (c : list nat) (minlength : nat) : list nat :=
  let n := Nat.max minlength (foldr (fun x m => Nat.max (S x) m) 0 c) in
  map (fun j => count_occ Nat.eq_dec c j) (seq 0 n).

End Np.


(** ** External collaborators

    The libraries the script calls, with the part of their documented
    contract the pipeline relies on. [np_intp] is the integer numpy and
    scikit-learn make of a float passed where a count is expected (the script
    passes its float [k] as [n_clusters] and as [minlength]; line 21 silences
    the deprecation warning this raised). *)

Class External : Type := {
  Image : Type;
  KMeans : Type;
  (** [mh.imread(fname, as_grey=b)]; [None] when the file cannot be decoded *)
  mh_imread : string -> bool -> option Image;
  mh_rgb2grey : Image -> Image;
  astype_uint8 : Image -> Image;
  mh_haralick : Image -> list (list float);
  mh_lbp : Image -> nat -> nat -> list float;
  mh_imresize : Image -> nat * nat -> Image;
  surf_dense : Image -> nat -> list (list float);
  (** [glob(pattern)], in the order the file system lists the entries *)
  glob : string -> list string;
  (** [MiniBatchKMeans(n_clusters, batch_size, n_init).fit(descriptors)] *)
  MiniBatchKMeans_fit : float -> nat -> nat -> list (list float) -> KMeans;
  km_predict : KMeans -> list (list float) -> list nat;
  km_centers : KMeans -> nat;
  np_intp : float -> nat;
  km_predict_length : forall m d, length (km_predict m d) = length d;
  km_predict_range :
    forall m d, Forall (fun j => j < km_centers m) (km_predict m d);
  fit_centers :
    forall k b n d, km_centers (MiniBatchKMeans_fit k b n d) = np_intp k;
  glob_jpg :
    forall dir p, In p (glob (dir +:+ "/*.jpg")) ->
      exists name, p = dir +:+ "/" +:+ name /\ Py.no_slash name = true
}.

(** ** State, exceptions and the script's monad *)

Inductive Exn : Type :=
  | IOError | OSError | IndexError | ValueError | KeyError
  | AttributeError | UnpicklingError.

Inductive Res (A : Type) : Type :=
  | Ok (a : A)
  | Raise (e : Exn).
Arguments Ok {A} a.
Arguments Raise {A} e.

Section Pipeline.
Context `{E : External}.

(** What the script pickles: float matrices, label arrays, fitted models. *)
Inductive Obj : Type :=
  | ONdarray (rows : list (list float))
  | OLabels (labels : list string)
  | OKMeans (m : KMeans).

Inductive Cell : Type :=
  | CStr (s : string)
  | CNum (x : float).

Inductive File : Type :=
  | FPickle (o : Obj)
  | FCsv (header : list string) (rows : list (list Cell))
  | FOther.

(** The observable library calls: image decodes and clustering fits. *)
Inductive Event : Type :=
  | EvImread (fname : string)
  | EvFit (k : float) (descriptors : list (list float)).

Record World : Type := mkWorld {
  fs : gmap string File;
  trace : list Event
}.

Definition M (A : Type) : Type := World -> Res A * World.

Definition ret {A} (a : A) : M A := fun w => (Ok a, w).

Definition raise {A} (e : Exn) : M A := fun w => (Raise e, w).

Definition bind {A B} (c : M A) (f : A -> M B) : M B :=
  fun w => match c w with
           | (Ok a, w') => f a w'
           | (Raise e, w') => (Raise e, w')
           end.

(** stdpp's monad notations: [x ← c; k] and [c;; k]. *)
#[global] Instance M_ret : MRet M := @ret.
#[global] Instance M_bind : MBind M := fun A B f c => bind c f.

Definition emit (ev : Event) : M unit :=
  fun w => (Ok tt, mkWorld (fs w) (trace w ++ [ev])).

Definition of_option {A} (e : Exn) (o : option A) : M A :=
  match o with Some a => ret a | None => raise e end.

Definition of_res {A} (r : Res A) : M A := fun w => (r, w).

(** A [for] loop that appends one result per element. *)
Fixpoint traverse {A B} (f : A -> M B) (l : list A) : M (list B) :=
  match l with
  | [] => ret []
  | x :: l' =>
      bind (f x) (fun y => bind (traverse f l') (fun ys => ret (y :: ys)))
  end.

End Pipeline.

Section Store.
Context `{E : External}.

(** *** File system primitives *)

Definition os_path_exists (filename : string) : M bool :=
  fun w => (Ok (bool_decide (is_Some (fs w !! filename))), w).

(** [os.listdir(path)] for a [path] that ends in a slash: the names of the
    files directly under it. *)
Definition os_listdir (path : string) : M (list string) :=
  fun w =>
    (Ok (filter (fun name => Py.no_slash name = true)
           (omap (fun kv => Py.strip_prefix path (fst kv))
              (map_to_list (fs w)))), w).

(** [pickle.load] of an open file. *)
Definition pickle_load (filename : string) : M Obj :=
  fun w => match fs w !! filename with
           | Some (FPickle o) => (Ok o, w)
           | Some _ => (Raise UnpicklingError, w)
           | None => (Raise IOError, w)
           end.

(** [pickle.dump(obj, fp)] on a file opened for writing. *)
Definition pickle_dump (filename : string) (obj : Obj) : M unit :=
  fun w => (Ok tt, mkWorld (<[filename := FPickle obj]> (fs w)) (trace w)).

(** *** Artifact store (lines 273-327) *)

Definition obj_filename (train : bool) (objectContent : string)
  : option string :=
  if train then Py.format "objects/train/train_{}.obj" [objectContent]
  else Py.format "objects/test/test_{}.obj" [objectContent].

(** [None] is Python's [None]. *)
Definition get_obj (train : bool) (objectContent : string) : M (option Obj) :=
  filename ← of_option IndexError (obj_filename train objectContent);
  present ← os_path_exists filename;
  if (present : bool) then
    o ← pickle_load filename; ret (Some o)
  else ret None.

Definition save_obj (train : bool) (objectContent : string) (obj : Obj)
  : M unit :=
  filename ← of_option IndexError (obj_filename train objectContent);
  pickle_dump filename obj.

(** *** Vocabulary (lines 234-270) *)

Definition get_kmeans (k : float) (train : bool)
    (descriptors : list (list float)) : M Obj :=
  let iterations := 30 in
  km ← get_obj train "k_means";
  match km with
  | Some km => ret km
  | None =>
      let km := MiniBatchKMeans_fit k 1000 iterations descriptors in
      emit (EvFit k descriptors);;
      save_obj train "k_means" (OKMeans km);;
      ret (OKMeans km)
  end.

End Store.

Section Features.
Context `{E : External}.

(** *** Per-image features (lines 26-59) *)

(** [mh.imread]: every decode is recorded before it can fail. *)
Definition imread (fname : string) (as_grey : bool) : M Image :=
  emit (EvImread fname);;
  of_option IOError (mh_imread fname as_grey).

Definition compute_texture (fname : string) : M (list float) :=
  im ← imread fname false;
  let im := mh_rgb2grey im in
  let im := astype_uint8 im in
  ret (concat (mh_haralick im)).

Definition compute_lbp (fname : string) : M (list float) :=
  imc ← imread fname false;
  let im := mh_rgb2grey imc in
  ret (mh_lbp im 8 6).

(** *** Image listing (lines 203-231) *)

Definition classes : list string :=
  ["c0"; "c1"; "c2"; "c3"; "c4"; "c5"; "c6"; "c7"; "c8"; "c9"].

(** The [for i in classes: images += glob(...)] loop. *)
Fixpoint glob_classes (cls : list string) (images : list string)
  : M (list string) :=
  match cls with
  | [] => ret images
  | i :: cls' =>
      pattern ← of_option IndexError
                  (Py.format "{}/{}/{}/*.jpg" ["imgs"; "train"; i]);
      glob_classes cls' (images ++ glob pattern)
  end.

Definition get_images (train : bool) : M (list string) :=
  let images := [] in
  images ← (if train then glob_classes classes images
            else
              pattern ← of_option IndexError
                          (Py.format "{}/{}/*.jpg" ["imgs"; "test"]);
              ret (images ++ glob pattern));
  ret (Py.sort images).

(** *** Dataset feature pipeline (lines 330-418) *)

(** The four lists the loop appends to. *)
Record Acc : Type := mkAcc {
  acc_haralicks : list (list float);
  acc_lbps : list (list float);
  acc_labels : list string;
  acc_alldescriptors : list (list (list float))
}.

(** The body of [for i, fname in enumerate(images)] (lines 377-394). *)
Definition features_step (train : bool) (fname : string) (acc : Acc) : M Acc :=
  texture ← compute_texture fname;
  binary_patt ← compute_lbp fname;
  let haralicks := acc_haralicks acc ++ [texture] in
  let lbps := acc_lbps acc ++ [binary_patt] in
  labels ← (if train then
              label ← of_option IndexError (Py.split "/" fname !! 2);
              ret (acc_labels acc ++ [label])
            else ret (acc_labels acc));
  im ← imread fname true;
  let im := mh_imresize im (600, 450) in
  let im := astype_uint8 im in
  let surf_desc := surf_dense im 16 in
  ret (mkAcc haralicks lbps labels (acc_alldescriptors acc ++ [surf_desc])).

Fixpoint features_loop (train : bool) (images : list string) (acc : Acc)
  : M Acc :=
  match images with
  | [] => ret acc
  | fname :: images' =>
      acc' ← features_step train fname acc;
      features_loop train images' acc'
  end.

(** The requested vocabulary size (lines 362-367). Python 2: [22425/2] is
    integer division, and [math.sqrt] returns a float that is passed on as
    it is. *)
Definition vocabulary_k (train : bool) : float :=
  if train then Np.math_sqrt (Np.float_of_int (22425 / 2))
  else Np.math_sqrt (Np.float_of_int (79727 / 2)).

Definition objects_path (train : bool) : string :=
  if train then "objects/train/" else "objects/test/".

(** [km.predict(d)] on whatever [get_kmeans] returned. *)
Definition predict (km : Obj) (d : list (list float)) : M (list nat) :=
  match km with
  | OKMeans m => ret (km_predict m d)
  | _ => raise AttributeError
  end.

(** Lines 404-405, the histogram encoder: one image's descriptor set to its
    vector of per-center counts. *)
Definition histogram_row (km : Obj) (k : float) (d : list (list float))
  : M (list nat) :=
  c ← predict km d;
  ret (Np.np_bincount c (np_intp k)).

(** The number of [.obj] entries of the split's cache directory (line 369). *)
Definition object_dir_file_num (train : bool) : M nat :=
  names ← os_listdir (objects_path train);
  ret (length (filter (fun name => Py.endswith name ".obj" = true) names)).

Definition get_features (train : bool) (images : list string)
  : M (option Obj * option Obj * option Obj * option Obj) :=
  let k := vocabulary_k train in
  object_dir_file_num ← object_dir_file_num train;
  if Nat.eqb object_dir_file_num 5 then
    haralicks ← get_obj train "haralicks";
    lbps ← get_obj train "lbps";
    labels ← get_obj train "labels";
    surf_descriptors ← get_obj train "surfdescriptors";
    ret (haralicks, lbps, labels, surf_descriptors)
  else
    acc ← features_loop train images (mkAcc [] [] [] []);
    let alldescriptors := acc_alldescriptors acc in
    concatenated ← of_option ValueError (Np.np_concatenate alldescriptors);
    let concatenated := Np.slice_step 64 concatenated in
    km ← get_kmeans k train concatenated;
    surf_descriptors ← traverse (histogram_row km k) alldescriptors;
    surf_descriptors ← of_option ValueError (Np.np_array_float surf_descriptors);
    let haralicks := ONdarray (acc_haralicks acc) in
    let lbps := ONdarray (acc_lbps acc) in
    let labels := OLabels (acc_labels acc) in
    save_obj train "surfdescriptors" (ONdarray surf_descriptors);;
    save_obj train "haralicks" haralicks;;
    save_obj train "lbps" lbps;;
    save_obj train "labels" labels;;
    ret (Some haralicks, Some lbps, Some labels,
         Some (ONdarray surf_descriptors)).

End Features.

(** ** Submission writer (lines 162-200) *)

(** A data frame column: strings or floats. *)
Inductive Column : Type :=
  | ColStr (l : list string)
  | ColNum (l : list float).

Definition col_length (c : Column) : nat :=
  match c with
  | ColStr l => length l
  | ColNum l => length l
  end.

Section Submission.
Context `{E : External}.

Definition col_cell (c : Column) (i : nat) : option Cell :=
  match c with
  | ColStr l => CStr <$> l !! i
  | ColNum l => CNum <$> l !! i
  end.

(** [pd.DataFrame(dict)]: the columns must have one common length. The dict
    is kept as the list of its items; columns are only looked up by name. *)
Definition pd_DataFrame (dict : list (string * Column))
  : Res (list (string * Column)) :=
  match dict with
  | [] => Ok []
  | (_, c) :: rest =>
      if forallb (fun kc => Nat.eqb (col_length (snd kc)) (col_length c)) rest
      then Ok dict
      else Raise ValueError
  end.

(** [df[names]]: the named columns, in the order asked for. *)
Fixpoint df_getitem (df : list (string * Column)) (names : list string)
  : Res (list (string * Column)) :=
  match names with
  | [] => Ok []
  | n :: names' =>
      match find (fun kc => String.eqb (fst kc) n) df with
      | None => Raise KeyError
      | Some kc =>
          match df_getitem df names' with
          | Ok cols => Ok (kc :: cols)
          | Raise e => Raise e
          end
      end
  end.

Definition df_rows (df : list (string * Column)) : list (list Cell) :=
  match df with
  | [] => []
  | (_, c) :: _ =>
      map (fun i => omap (fun kc => col_cell (snd kc) i) df)
        (seq 0 (col_length c))
  end.

(** [df.to_csv(fileName, index=False)]. *)
Definition to_csv (df : list (string * Column)) (fileName : string) : M unit :=
  fun w =>
    (Ok tt,
     mkWorld (<[fileName := FCsv (map fst df) (df_rows df)]> (fs w)) (trace w)).

(** What [accuracy] hands over: a Python list of per-class arrays (random
    forest branch) or the [predict_proba] matrix (logistic regression). *)
Inductive Preds : Type :=
  | PredsList (l : list (list float))
  | PredsArray (a : Np.Ndarray2).

(** [c0, c1, c2, c3, c4, c5, c6, c7, c8, c9 = preds]. *)
Definition unpack10 (preds : list (list float))
  : Res (list float * list float * list float * list float * list float *
         list float * list float * list float * list float * list float) :=
  match preds with
  | [c0; c1; c2; c3; c4; c5; c6; c7; c8; c9] =>
      Ok (c0, c1, c2, c3, c4, c5, c6, c7, c8, c9)
  | _ => Raise ValueError
  end.

Definition submission_columns : list string :=
  ["img"; "c0"; "c1"; "c2"; "c3"; "c4"; "c5"; "c6"; "c7"; "c8"; "c9"].

Definition create_submission (featureType : string) (preds : Preds)
    (images : list string) : M unit :=
  let preds :=
    match preds with
    | PredsList l => l
    | PredsArray a => Np.rows (Np.transpose a)
    end in
  '(c0, c1, c2, c3, c4, c5, c6, c7, c8, c9) ← of_res (unpack10 preds);
  submission_data ← of_res (pd_DataFrame
    [("img", ColStr (map (Py.last_segment "/") images));
     ("c0", ColNum c0); ("c1", ColNum c1); ("c2", ColNum c2);
     ("c3", ColNum c3); ("c4", ColNum c4); ("c5", ColNum c5);
     ("c6", ColNum c6); ("c7", ColNum c7); ("c8", ColNum c8);
     ("c9", ColNum c9)]);
  fileName ← of_option IndexError
               (Py.format "{}/{}_submission.csv" ["submissions"; featureType]);
  selected ← of_res (df_getitem submission_data submission_columns);
  to_csv selected fileName.

End Submission.

(** * Values the statements speak of

    Pure counterparts of what the script computes, used to state what it
    returns and what state it leaves. *)

(** The path [get_obj] and [save_obj] build for a split and an artifact kind. *)
Definition artifact_path (train : bool) (kind : string) : string :=
  if train then "objects/train/train_" +:+ kind +:+ ".obj"
  else "objects/test/test_" +:+ kind +:+ ".obj".

(** One past the largest entry of [c]. *)
Definition bound (c : list nat) : nat :=
  foldr (fun x m => Nat.max (S x) m) 0 c.

(** The spec's [round(sqrt(N/2))]: the integer nearest to the square root of
    [N/2], that is the [K] with [(2K-1)^2 <= 2N < (2K+1)^2]. *)
Definition spec_vocabulary_size (N : Z) : Z := (Z.sqrt (2 * N) + 1) / 2.

(** The file name of line 197. *)
Definition submission_path (featureType : string) : string :=
  "submissions/" +:+ featureType +:+ "_submission.csv".

Section Values.
Context `{E : External}.

(** One image's share of the four lists: texture vector, pattern vector,
    label (training split only) and descriptor set. *)
Record Row : Type := mkRow {
  row_texture : list float;
  row_pattern : list float;
  row_label : option string;
  row_descriptors : list (list float)
}.

(** What the loop body (lines 378-394) computes from one image, as a value;
    [None] when a decode fails or, for training, the path has no third
    segment. *)
Definition extract (train : bool) (fname : string) : option Row :=
  im ← mh_imread fname false;
  label ← (if train then Some <$> Py.split "/" fname !! 2 else Some None);
  img ← mh_imread fname true;
  Some (mkRow (concat (mh_haralick (astype_uint8 (mh_rgb2grey im))))
          (mh_lbp (mh_rgb2grey im) 8 6)
          label
          (surf_dense (astype_uint8 (mh_imresize img (600, 450))) 16)).

(** Three decodes per image: texture, pattern, descriptors. *)
Definition decodes (images : list string) : list Event :=
  images ≫= fun f => [EvImread f; EvImread f; EvImread f].

(** Line 405 as a value. *)
Definition encode (m : KMeans) (minlength : nat) (d : list (list float))
  : list nat :=
  Np.np_bincount (km_predict m d) minlength.

(** The [dtype=float] conversion of line 407, on one row. *)
Definition to_float_row (h : list nat) : list float :=
  map (fun n => Np.float_of_int (Z.of_nat n)) h.

(** Lines 396-399: the collection handed to [get_kmeans]. *)
Definition pooled (rows : list Row) : list (list float) :=
  Np.slice_step 64 (concat (map row_descriptors rows)).

(** The count of line 369 as a value. *)
Definition obj_count (train : bool) (w : World) : nat :=
  length (filter (fun name => Py.endswith name ".obj" = true)
            (filter (fun name => Py.no_slash name = true)
               (omap (fun kv => Py.strip_prefix (objects_path train) (fst kv))
                  (map_to_list (fs w))))).

(** The split's cached vocabulary is usable: there is none yet, or it is a
    fitted model with no more centers than the histogram length. *)
Definition vocabulary_ready (train : bool) (w : World) : Prop :=
  match fs w !! artifact_path train "k_means" with
  | None => True
  | Some (FPickle (OKMeans m)) => km_centers m <= np_intp (vocabulary_k train)
  | Some _ => False
  end.

(** The model a from-scratch run of the split encodes with. *)
Definition chosen_model (train : bool) (w : World) (rows : list Row) : KMeans :=
  match fs w !! artifact_path train "k_means" with
  | Some (FPickle (OKMeans m)) => m
  | _ => MiniBatchKMeans_fit (vocabulary_k train) 1000 30 (pooled rows)
  end.

(** The state [get_kmeans] leaves. *)
Definition after_kmeans (train : bool) (w : World) (rows : list Row) : World :=
  match fs w !! artifact_path train "k_means" with
  | None =>
      mkWorld
        (<[artifact_path train "k_means" :=
             FPickle (OKMeans (MiniBatchKMeans_fit (vocabulary_k train) 1000 30
                                 (pooled rows)))]> (fs w))
        (trace w ++ [EvFit (vocabulary_k train) (pooled rows)])
  | Some _ => w
  end.

(** The histogram matrix of a from-scratch run. *)
Definition histograms (train : bool) (w : World) (rows : list Row)
  : list (list float) :=
  map (fun r => to_float_row
                  (encode (chosen_model train w rows)
                     (np_intp (vocabulary_k train)) (row_descriptors r)))
    rows.

(** The state a from-scratch run leaves: the decodes and the fit (if any) in
    the trace, the model (if fitted) and the four matrices in the store. *)
Definition scratch_world (train : bool) (images : list string)
    (rows : list Row) (w : World) : World :=
  let w1 := after_kmeans train (mkWorld (fs w) (trace w ++ decodes images))
              rows in
  mkWorld
    (<[artifact_path train "labels" := FPickle (OLabels (omap row_label rows))]>
       (<[artifact_path train "lbps" :=
            FPickle (ONdarray (map row_pattern rows))]>
          (<[artifact_path train "haralicks" :=
               FPickle (ONdarray (map row_texture rows))]>
             (<[artifact_path train "surfdescriptors" :=
                  FPickle (ONdarray (histograms train w rows))]> (fs w1)))))
    (trace w1).

(** The paths [get_images] collects before sorting, in listing order. *)
Definition globbed (train : bool) : list string :=
  if train
  then concat (map (fun c => glob (("imgs/train/" +:+ c) +:+ "/*.jpg")) classes)
  else glob ("imgs/test" +:+ "/*.jpg").

(** The sequence line 182 unpacks: the list itself, or the rows of the
    transposed matrix, one per class. *)
Definition class_columns (preds : Preds) : list (list float) :=
  match preds with
  | PredsList l => l
  | PredsArray a => Np.rows (Np.transpose a)
  end.

End Values.

(** * Properties *)

(** ** The monad *)

Section MonadFacts.
Context `{E : External}.

Lemma bind_ok {A B} (c : M A) (f : A -> M B) w a w' :
  c w = (Ok a, w') -> (c ≫= f) w = f a w'.
Proof. intros H. unfold mbind, M_bind, bind. by rewrite H. Qed.

Lemma bind_raise {A B} (c : M A) (f : A -> M B) w e w' :
  c w = (Raise e, w') -> (c ≫= f) w = (Raise e, w').
Proof. intros H. unfold mbind, M_bind, bind. by rewrite H. Qed.

Lemma bind_ret_l {A B} (a : A) (f : A -> M B) w : (ret a ≫= f) w = f a w.
Proof. reflexivity. Qed.

End MonadFacts.

(** ** Artifact store *)

Section StoreFacts.
Context `{E : External}.

Lemma obj_filename_eq train kind :
  obj_filename train kind = Some (artifact_path train kind).
Proof. by destruct train. Qed.

Lemma get_obj_absent train kind w :
  fs w !! artifact_path train kind = None ->
  get_obj train kind w = (Ok None, w).
Proof.
  intros H. unfold get_obj. rewrite obj_filename_eq.
  unfold mbind, M_bind, bind, of_option, ret, os_path_exists. cbn.
  rewrite H. rewrite bool_decide_eq_false_2; [done|]. by intros [? ?].
Qed.

Lemma get_obj_cached train kind w o :
  fs w !! artifact_path train kind = Some (FPickle o) ->
  get_obj train kind w = (Ok (Some o), w).
Proof.
  intros H. unfold get_obj. rewrite obj_filename_eq.
  unfold mbind, M_bind, bind, of_option, ret, os_path_exists, pickle_load. cbn.
  rewrite H. rewrite bool_decide_eq_true_2; [|by eexists]. cbn. by rewrite H.
Qed.

Lemma save_obj_eq train kind o w :
  save_obj train kind o w =
  (Ok tt, mkWorld (<[artifact_path train kind := FPickle o]> (fs w)) (trace w)).
Proof. unfold save_obj. by rewrite obj_filename_eq. Qed.

End StoreFacts.

(** ** Strings *)

Section StringFacts.

Lemma split_nonempty sep s : Py.split sep s <> [].
Proof.
  destruct s as [|c s]; cbn; [done|].
  destruct (Ascii.eqb c sep); [done|]. by destruct (Py.split sep s).
Qed.

Lemma app_empty_l s : "" +:+ s = s.
Proof. reflexivity. Qed.

Lemma app_String c a b : String c a +:+ b = String c (a +:+ b).
Proof. reflexivity. Qed.

(** Splitting distributes over a separator in the middle. *)
Lemma split_app sep s1 s2 :
  Py.split sep (s1 +:+ String sep s2) = Py.split sep s1 ++ Py.split sep s2.
Proof.
  induction s1 as [|c s1 IH].
  - rewrite app_empty_l. cbn. by rewrite Ascii.eqb_refl.
  - rewrite app_String. cbn. rewrite IH. destruct (Ascii.eqb c sep); [done|].
    pose proof (split_nonempty sep s1). by destruct (Py.split sep s1).
Qed.

Lemma split_no_slash name :
  Py.no_slash name = true -> Py.split "/" name = [name].
Proof.
  induction name as [|c s IH]; cbn; [done|].
  destruct (Ascii.eqb c "/"); cbn; [done|]. intros H. by rewrite IH.
Qed.

Lemma length_app_string a b :
  String.length (a +:+ b) = String.length a + String.length b.
Proof.
  induction a as [|c a IH]; [done|]. rewrite app_String. cbn. by rewrite IH.
Qed.

Lemma app_inj_r s a b : a +:+ s = b +:+ s -> a = b.
Proof.
  revert b. induction a as [|c a IH]; intros [|d b] H.
  - done.
  - apply (f_equal String.length) in H.
    rewrite !length_app_string in H. cbn in H. lia.
  - apply (f_equal String.length) in H.
    rewrite !length_app_string in H. cbn in H. lia.
  - rewrite !app_String in H. injection H as -> H. f_equal. by apply IH.
Qed.

(** The last component of [dir/name] is [name]. *)
Lemma last_segment_app dir name :
  Py.no_slash name = true ->
  Py.last_segment "/" (dir +:+ "/" +:+ name) = name.
Proof.
  intros Hn. unfold Py.last_segment.
  change (dir +:+ "/" +:+ name) with (dir +:+ String "/" name).
  rewrite split_app, (split_no_slash name Hn). apply last_last.
Qed.

(** A path without separator is its own last component. *)
Lemma last_segment_no_slash name :
  Py.no_slash name = true -> Py.last_segment "/" name = name.
Proof. intros Hn. unfold Py.last_segment. by rewrite split_no_slash. Qed.

End StringFacts.

(** ** numpy helpers *)

Section NumpyFacts.

Lemma bound_le c n : Forall (fun j => j < n) c -> bound c <= n.
Proof. unfold bound. induction 1 as [|x c Hx _ IH]; cbn; lia. Qed.

Lemma length_np_bincount c n :
  length (Np.np_bincount c n) = Nat.max n (bound c).
Proof. unfold Np.np_bincount. by rewrite length_map, length_seq. Qed.

Lemma lookup_np_bincount c n j :
  j < Nat.max n (bound c) ->
  Np.np_bincount c n !! j = Some (count_occ Nat.eq_dec c j).
Proof.
  intros Hj. unfold Np.np_bincount. rewrite list_lookup_fmap.
  fold (bound c). by rewrite lookup_seq_lt.
Qed.

Lemma np_bincount_nil n : Np.np_bincount [] n = replicate n 0.
Proof.
  unfold Np.np_bincount. cbn. rewrite Nat.max_0_r.
  generalize 0 at 2. induction n as [|n IH]; intros a; cbn; [done|].
  by rewrite IH.
Qed.

Lemma length_np_bincount_exact c n :
  Forall (fun j => j < n) c -> length (Np.np_bincount c n) = n.
Proof. intros H%bound_le. rewrite length_np_bincount. lia. Qed.

(** Every [step]-th element, seen through positions. *)
Lemma lookup_slice_from {A} (l : list A) skip step' i :
  Np.slice_from skip step' l !! i = l !! (skip + i * S step').
Proof.
  revert skip i. induction l as [|x l IH]; intros skip i; [done|].
  destruct skip as [|skip]; cbn.
  - destruct i as [|i]; [done|]. cbn. rewrite IH. f_equal. 
  - by rewrite IH.
Qed.

Lemma lookup_slice_step {A} (l : list A) step i :
  0 < step -> Np.slice_step step l !! i = l !! (step * i).
Proof.
  intros H. unfold Np.slice_step. rewrite lookup_slice_from. f_equal. nia.
Qed.

End NumpyFacts.

(** ** The pipeline computed from scratch *)

Section PipelineFacts.
Context `{E : External}.

Lemma features_step_ok train fname acc w r :
  extract train fname = Some r ->
  features_step train fname acc w =
  (Ok (mkAcc (acc_haralicks acc ++ [row_texture r])
         (acc_lbps acc ++ [row_pattern r])
         (acc_labels acc ++ option_list (row_label r))
         (acc_alldescriptors acc ++ [row_descriptors r])),
   mkWorld (fs w) (trace w ++ [EvImread fname; EvImread fname; EvImread fname])).
Proof.
  unfold extract. intros H.
  destruct (mh_imread fname false) as [im|] eqn:H1; [|done]. cbn in H.
  destruct (mh_imread fname true) as [img|] eqn:H2;
    [|by destruct train, (Py.split "/" fname !! 2)].
  unfold features_step, compute_texture, compute_lbp, imread, emit, of_option,
    mbind, M_bind, bind, ret. cbn. rewrite H1, H2.
  destruct train.
  - destruct (Py.split "/" fname !! 2) as [lab|] eqn:H3; [|done].
    cbn in H. injection H as <-. cbn. by rewrite <-!app_assoc.
  - cbn in H. injection H as <-. cbn. by rewrite !app_nil_r, <-!app_assoc.
Qed.

Lemma features_loop_ok train images : forall acc w rows,
  mapM (extract train) images = Some rows ->
  features_loop train images acc w =
  (Ok (mkAcc (acc_haralicks acc ++ map row_texture rows)
         (acc_lbps acc ++ map row_pattern rows)
         (acc_labels acc ++ omap row_label rows)
         (acc_alldescriptors acc ++ map row_descriptors rows)),
   mkWorld (fs w) (trace w ++ decodes images)).
Proof.
  induction images as [|f images IH]; intros acc w rows H.
  - cbn in H. injection H as <-. cbn. rewrite !app_nil_r. by destruct acc, w.
  - cbn in H. destruct (extract train f) as [r|] eqn:Hr; [|done]. cbn in H.
    destruct (mapM (extract train) images) as [rs|] eqn:Hrs; [|done].
    cbn in H. injection H as <-.
    cbn [features_loop]. erewrite bind_ok; [|by apply features_step_ok].
    rewrite (IH _ _ rs); [|done]. cbn.
    rewrite <-!app_assoc. cbn. f_equal. f_equal.
    by destruct (row_label r).
Qed.

Lemma object_dir_file_num_eq train w :
  object_dir_file_num train w = (Ok (obj_count train w), w).
Proof. reflexivity. Qed.

Lemma get_kmeans_chosen train w rows :
  vocabulary_ready train w ->
  get_kmeans (vocabulary_k train) train (pooled rows) w =
  (Ok (OKMeans (chosen_model train w rows)), after_kmeans train w rows).
Proof.
  unfold vocabulary_ready, chosen_model, after_kmeans, get_kmeans. intros H.
  destruct (fs w !! artifact_path train "k_means") as [[[]| |]|] eqn:Hk;
    try done.
  - erewrite bind_ok; [|by apply get_obj_cached]. done.
  - erewrite bind_ok; [|by apply get_obj_absent].
    unfold emit, mbind, M_bind, bind, ret. by rewrite save_obj_eq.
Qed.

Lemma chosen_model_centers train w rows :
  vocabulary_ready train w ->
  km_centers (chosen_model train w rows) <= np_intp (vocabulary_k train).
Proof.
  unfold vocabulary_ready, chosen_model.
  destruct (fs w !! artifact_path train "k_means") as [[[]| |]|];
    try done; intros _; by rewrite fit_centers.
Qed.

Lemma length_encode m n d :
  km_centers m <= n -> length (encode m n d) = n.
Proof.
  intros H. apply length_np_bincount_exact.
  eapply Forall_impl; [apply km_predict_range|]. cbn. lia.
Qed.

Lemma histogram_row_eq m k d w :
  histogram_row (OKMeans m) k d w = (Ok (encode m (np_intp k) d), w).
Proof. reflexivity. Qed.

Lemma traverse_histogram_row m k ds w :
  traverse (histogram_row (OKMeans m) k) ds w =
  (Ok (map (encode m (np_intp k)) ds), w).
Proof.
  induction ds as [|d ds IH]; [done|].
  cbn [traverse]. unfold bind. by rewrite histogram_row_eq, IH.
Qed.

Lemma np_array_float_ok rows n :
  Forall (fun r => length r = n) rows ->
  Np.np_array_float rows = Some (map to_float_row rows).
Proof.
  intros H. destruct rows as [|r rows]; [done|].
  unfold Np.np_array_float. inversion H as [|?? Hr Hrows]; subst.
  rewrite (proj2 (forallb_forall _ _)); [done|].
  intros r' Hr'. apply Nat.eqb_eq.
  rewrite Forall_forall in Hrows. apply Hrows. by apply list_elem_of_In.
Qed.

Lemma get_features_scratch train images w rows :
  obj_count train w <> 5 ->
  images <> [] ->
  mapM (extract train) images = Some rows ->
  vocabulary_ready train w ->
  get_features train images w =
  (Ok (Some (ONdarray (map row_texture rows)),
       Some (ONdarray (map row_pattern rows)),
       Some (OLabels (omap row_label rows)),
       Some (ONdarray (histograms train w rows))),
   scratch_world train images rows w).
Proof.
  intros H5 Hne Hrows Hk. unfold get_features.
  erewrite bind_ok; [|apply object_dir_file_num_eq].
  destruct (Nat.eqb_spec (obj_count train w) 5) as [|_]; [done|].
  erewrite bind_ok; [|by apply features_loop_ok]. cbn [acc_alldescriptors app].
  assert (map row_descriptors rows <> []) as Hd.
  { apply length_mapM in Hrows. destruct images, rows; done. }
  assert (Np.np_concatenate (map row_descriptors rows) =
          Some (concat (map row_descriptors rows))) as ->.
  { by destruct (map row_descriptors rows). }
  cbn [of_option]. rewrite bind_ret_l. fold (pooled rows).
  erewrite bind_ok; [|by apply get_kmeans_chosen].
  erewrite bind_ok; [|apply traverse_histogram_row].
  erewrite np_array_float_ok; last first.
  { apply Forall_forall. intros h Hh.
    apply list_elem_of_In, in_map_iff in Hh. destruct Hh as (d & <- & _).
    apply length_encode. by apply (chosen_model_centers train). }
  cbn [of_option]. rewrite bind_ret_l.
  unfold mbind, M_bind, bind. rewrite !save_obj_eq. cbn.
  unfold histograms, scratch_world, chosen_model. cbn.
  by rewrite !map_map.
Qed.

End PipelineFacts.

(** ** Image order and labels *)

Section Alignment.
Context `{E : External}.

Lemma glob_classes_eq cls : forall images w,
  glob_classes cls images w =
  (Ok (images ++
       concat (map (fun c => glob (("imgs/train/" +:+ c) +:+ "/*.jpg")) cls)),
   w).
Proof.
  induction cls as [|c cls IH]; intros images w; cbn [glob_classes].
  - cbn. by rewrite app_nil_r.
  - change (Py.format "{}/{}/{}/*.jpg" ["imgs"; "train"; c])
      with (Some (("imgs/train/" +:+ c) +:+ "/*.jpg")).
    cbn [of_option]. rewrite bind_ret_l, IH. cbn. by rewrite app_assoc.
Qed.

Lemma get_images_eq train w :
  get_images train w = (Ok (Py.sort (globbed train)), w).
Proof.
  unfold get_images, globbed. destruct train.
  - erewrite bind_ok; [|apply glob_classes_eq]. done.
  - done.
Qed.

Lemma sort_sorted l : StronglySorted String.le (Py.sort l).
Proof. apply StronglySorted_merge_sort; apply _. Qed.

Lemma sort_permutation l : Py.sort l ≡ₚ l.
Proof. apply merge_sort_Permutation. Qed.

(** The sorted list does not depend on the order the directory is listed in. *)
Lemma sort_deterministic l l' : l ≡ₚ l' -> Py.sort l = Py.sort l'.
Proof.
  intros H. apply (StronglySorted_unique String.le); [apply sort_sorted..|].
  by rewrite !sort_permutation.
Qed.

Lemma class_segment c name :
  Py.no_slash c = true -> Py.no_slash name = true ->
  Py.split "/" (("imgs/train/" +:+ c) +:+ "/" +:+ name) !! 2 = Some c.
Proof.
  intros Hc Hn.
  change (("imgs/train/" +:+ c) +:+ "/" +:+ name)
    with ("imgs" +:+ String "/" ("train" +:+ String "/" (c +:+ String "/" name))).
  rewrite !split_app, (split_no_slash c Hc). done.
Qed.

Lemma globbed_train_shape f :
  In f (globbed true) ->
  exists c name, In c classes /\ Py.no_slash name = true /\
    f = ("imgs/train/" +:+ c) +:+ "/" +:+ name /\
    Py.split "/" f !! 2 = Some c.
Proof.
  unfold globbed. intros H. apply in_concat in H as (l & Hl & Hf).
  apply in_map_iff in Hl as (c & <- & Hc).
  apply glob_jpg in Hf as (name & -> & Hname).
  exists c, name. repeat split; [done..|].
  apply class_segment; [|done].
  cbn in Hc. by repeat (destruct Hc as [<-|Hc]; [done|]).
Qed.

Lemma extract_train_label f r :
  extract true f = Some r -> Py.split "/" f !! 2 = row_label r /\ is_Some (row_label r).
Proof.
  unfold extract. intros H.
  destruct (mh_imread f false); [|done]. cbn in H.
  destruct (Py.split "/" f !! 2) as [lab|]; [|done]. cbn in H.
  destruct (mh_imread f true); [|done]. cbn in H. injection H as <-. by eauto.
Qed.

Lemma train_labels_aligned images rows :
  Forall2 (fun f r => extract true f = Some r) images rows ->
  Forall2 (fun f lab => Py.split "/" f !! 2 = Some lab) images
    (omap row_label rows).
Proof.
  induction 1 as [|f r images rows Hr _ IH]; cbn; [constructor|].
  apply extract_train_label in Hr as [Hs [lab Hlab]].
  rewrite Hlab. constructor; [congruence|done].
Qed.

End Alignment.

(** ** Submission writer *)

Section SubmissionFacts.
Context `{E : External}.

Lemma class_columns_array a :
  length (class_columns (PredsArray a)) = snd (Np.shape a).
Proof. cbn. by rewrite length_map, length_seq. Qed.

Lemma unpack10_raise cols :
  length cols <> 10 -> unpack10 cols = Raise ValueError.
Proof.
  intros H. do 11 (destruct cols as [|? cols]; [done|]). done.
Qed.

Lemma create_submission_raise featureType preds images w :
  length (class_columns preds) <> 10 ->
  create_submission featureType preds images w = (Raise ValueError, w).
Proof.
  intros H. unfold create_submission. fold (class_columns preds).
  apply bind_raise. unfold of_res. by rewrite unpack10_raise.
Qed.

Lemma lookup_nth {A} (l : list A) i d :
  i < length l -> l !! i = Some (nth i l d).
Proof.
  intros H. destruct (lookup_lt_is_Some_2 l i H) as [x Hx].
  rewrite Hx. f_equal. symmetry. by apply nth_lookup_Some.
Qed.

Lemma create_submission_ok featureType preds images w :
  length (class_columns preds) = 10 ->
  Forall (fun c => length c = length images) (class_columns preds) ->
  create_submission featureType preds images w =
  (Ok tt,
   mkWorld
     (<[submission_path featureType :=
          FCsv submission_columns
            (map (fun i =>
                    CStr (nth i (map (Py.last_segment "/") images) "")
                    :: map (fun c => CNum (nth i c 0%float))
                         (class_columns preds))
               (seq 0 (length images)))]> (fs w))
     (trace w)).
Proof.
  intros H10 Hlen. unfold create_submission. fold (class_columns preds).
  destruct (class_columns preds) as [|c0 cols]; [done|].
  do 9 (destruct cols as [|? cols]; [done|]).
  destruct cols; [|done]. clear H10.
  repeat match goal with
         | H : Forall _ (_ :: _) |- _ =>
             apply Forall_cons in H as [? H]
         end.
  cbn [unpack10 of_res]. unfold mbind, M_bind, bind, of_res.
  cbn [pd_DataFrame forallb snd col_length]. rewrite length_map.
  repeat match goal with
         | H : length ?c = length images |- context [length ?c] => rewrite H
         end.
  rewrite Nat.eqb_refl. cbn [andb].
  change (Py.format "{}/{}_submission.csv" ["submissions"; featureType])
    with (Some (submission_path featureType)).
  cbn [of_option ret]. cbn [df_getitem submission_columns find fst String.eqb
                              Ascii.eqb Bool.eqb].
  unfold to_csv. cbn [map fst]. f_equal. f_equal. f_equal. f_equal.
  unfold df_rows. cbn [col_length snd]. rewrite length_map.
  apply map_ext_in. intros i Hi%in_seq.
  cbn [omap list_omap snd col_cell].
  rewrite (lookup_nth (map (Py.last_segment "/") images) i "")
    by (rewrite length_map; lia).
  rewrite !(lookup_nth _ i 0%float) by lia.
  done.
Qed.

Lemma create_submission_inv featureType preds images w w' :
  create_submission featureType preds images w = (Ok tt, w') ->
  length (class_columns preds) = 10 /\
  Forall (fun c => length c = length images) (class_columns preds).
Proof.
  intros H.
  destruct (decide (length (class_columns preds) = 10)) as [H10|Hn];
    [|by rewrite create_submission_raise in H].
  split; [done|]. revert H. unfold create_submission.
  fold (class_columns preds).
  destruct (class_columns preds) as [|c0 cols]; [done|].
  do 9 (destruct cols as [|? cols]; [done|]).
  destruct cols; [|done]. clear H10.
  cbn [unpack10 of_res]. unfold mbind, M_bind, bind, of_res.
  cbn [pd_DataFrame snd col_length]. rewrite length_map.
  destruct (forallb _ _) eqn:Hall; [|done]. intros _.
  cbn [forallb snd col_length] in Hall.
  repeat (apply andb_prop in Hall as [?%Nat.eqb_eq Hall]).
  by repeat constructor.
Qed.

End SubmissionFacts.

(** ** Nearest integer to a square root *)

Lemma spec_vocabulary_size_nearest N :
  (0 < N)%Z ->
  let K := spec_vocabulary_size N in
  ((2 * K - 1) ^ 2 <= 2 * N < (2 * K + 1) ^ 2)%Z.
Proof.
  intros HN K. subst K. unfold spec_vocabulary_size.
  pose proof (Z.sqrt_spec (2 * N) ltac:(lia)) as [Hlo Hhi].
  assert (1 <= Z.sqrt (2 * N))%Z as Hs.
  { apply Z.sqrt_le_square; lia. }
  unfold Z.succ in Hhi.
  set (s := Z.sqrt (2 * N)) in *.
  pose proof (Z.div_mod (s + 1) 2 ltac:(lia)) as Hdm.
  pose proof (Z.mod_pos_bound (s + 1) 2 ltac:(lia)) as Hm.
  set (q := ((s + 1) / 2)%Z) in *.
  clearbody q. clearbody s. rewrite !Z.pow_2_r.
  assert (s = 2 * q - 1 \/ s = 2 * q)%Z as [->| ->] by lia; nia.
Qed.

(** ** A concrete instance of the collaborators

    A small world on which the statements below are run: an image is its own
    path, a descriptor is one character code of the path, and a fitted model
    assigns a descriptor to its code modulo the number of centers. *)

Module Toy.

Definition code (c : ascii) : float := Np.float_of_int (Z.of_N (N_of_ascii c)).

Definition intp (f : float) : nat :=
  Nat.max 1 (Z.to_nat (default 0%Z (Np.trunc f))).

Record Model : Type := mkModel {
  centers : nat;
  sample : list (list float)
}.

Definition n_centers (m : Model) : nat := Nat.max 1 (centers m).

Definition assign (m : Model) (v : list float) : nat :=
  Z.to_nat (default 0%Z (Np.trunc (hd 0%float v))) mod n_centers m.

Definition fit (k : float) (batch_size n_init : nat)
    (descriptors : list (list float)) : Model :=
  mkModel (intp k) descriptors.

Definition decode (fname : string) (as_grey : bool) : option string :=
  if Py.endswith fname ".jpg" then Some fname else None.

Definition dense (im : string) (spacing : nat) : list (list float) :=
  map (fun c => [code c]) (list_ascii_of_string im).

Definition listing (pattern : string) : list string :=
  if String.eqb pattern "imgs/train/c0/*.jpg"
  then ["imgs/train/c0/b.jpg"; "imgs/train/c0/a.jpg"]
  else if String.eqb pattern "imgs/train/c3/*.jpg"
  then ["imgs/train/c3/a.jpg"]
  else if String.eqb pattern "imgs/test/*.jpg"
  then ["imgs/test/t2.jpg"; "imgs/test/t1.jpg"]
  else [].

Lemma assign_range m d : Forall (fun j => j < n_centers m) (map (assign m) d).
Proof.
  apply Forall_forall. intros j Hj. apply list_elem_of_In, in_map_iff in Hj.
  destruct Hj as (v & <- & _). unfold assign.
  apply Nat.mod_upper_bound. unfold n_centers. lia.
Qed.

Lemma fit_n_centers k b n d : n_centers (fit k b n d) = intp k.
Proof. unfold n_centers, fit, intp. cbn. lia. Qed.

Lemma listing_jpg dir p :
  In p (listing (dir +:+ "/*.jpg")) ->
  exists name, p = dir +:+ "/" +:+ name /\ Py.no_slash name = true.
Proof.
  unfold listing.
  destruct (String.eqb_spec (dir +:+ "/*.jpg") "imgs/train/c0/*.jpg") as [H|_].
  { apply (app_inj_r "/*.jpg" dir "imgs/train/c0") in H as ->.
    intros [<-|[<-|[]]]; [by exists "b.jpg" | by exists "a.jpg"]. }
  destruct (String.eqb_spec (dir +:+ "/*.jpg") "imgs/train/c3/*.jpg") as [H|_].
  { apply (app_inj_r "/*.jpg" dir "imgs/train/c3") in H as ->.
    intros [<-|[]]. by exists "a.jpg". }
  destruct (String.eqb_spec (dir +:+ "/*.jpg") "imgs/test/*.jpg") as [H|_].
  { apply (app_inj_r "/*.jpg" dir "imgs/test") in H as ->.
    intros [<-|[<-|[]]]; [by exists "t2.jpg" | by exists "t1.jpg"]. }
  intros [].
Qed.

#[export] Instance env : External := {|
  Image := string;
  KMeans := Model;
  mh_imread := decode;
  mh_rgb2grey := fun im => im;
  astype_uint8 := fun im => im;
  mh_haralick := fun im =>
    [[Np.float_of_int (Z.of_nat (String.length im))]; [0%float]];
  mh_lbp := fun im radius points =>
    [Np.float_of_int (Z.of_nat radius); Np.float_of_int (Z.of_nat points)];
  mh_imresize := fun im _ => im;
  surf_dense := dense;
  glob := listing;
  MiniBatchKMeans_fit := fit;
  km_predict := fun m d => map (assign m) d;
  km_centers := n_centers;
  np_intp := intp;
  km_predict_length := fun m d => length_map (assign m) d;
  km_predict_range := assign_range;
  fit_centers := fit_n_centers;
  glob_jpg := listing_jpg
|}.

End Toy.

(** ** Concrete worlds over the toy collaborators *)

Module Scenario.
Import Toy.

Definition test_images : list string := ["imgs/test/t1.jpg"; "imgs/test/t2.jpg"].

Definition train_images : list string :=
  ["imgs/train/c0/a.jpg"; "imgs/train/c0/b.jpg"; "imgs/train/c3/a.jpg"].

(** A vocabulary with three centers, as cached by an earlier training run. *)
Definition m_train : KMeans := mkModel 3 [[97%float]].

(** A vocabulary fitted with the training split's [k]. *)
Definition m_fresh : KMeans := MiniBatchKMeans_fit (vocabulary_k true) 1000 30 [].

Definition w_empty : World := mkWorld ∅ [].

(** Only the training vocabulary is cached. *)
Definition w_train_vocabulary : World :=
  mkWorld {[ "objects/train/train_k_means.obj" := FPickle (OKMeans m_train) ]} [].

Definition h0 : Obj := ONdarray [[1%float; 2%float]].
Definition l0 : Obj := ONdarray [[3%float]].
Definition lab0 : Obj := OLabels ["c0"].
Definition s0 : Obj := ONdarray [[0%float; 1%float; 0%float]].

(** A warm training cache: the five artifacts and nothing else. *)
Definition w_warm : World :=
  mkWorld
    (<["objects/train/train_haralicks.obj" := FPickle h0]>
       (<["objects/train/train_lbps.obj" := FPickle l0]>
          (<["objects/train/train_labels.obj" := FPickle lab0]>
             (<["objects/train/train_surfdescriptors.obj" := FPickle s0]>
                (<["objects/train/train_k_means.obj" :=
                     FPickle (OKMeans m_train)]> ∅)))))
    [].

(** What the loop computes from one image under the toy collaborators. *)
Definition row_of (train : bool) (f : string) : Row :=
  mkRow (concat (mh_haralick f)) (mh_lbp f 8 6)
    (if train then Py.split "/" f !! 2 else None)
    (surf_dense f 16).

Definition test_rows : list Row := map (row_of false) test_images.

Definition train_rows : list Row := map (row_of true) train_images.

(** The model a test run fits when the test namespace holds none. *)
Definition m_test : KMeans :=
  MiniBatchKMeans_fit (vocabulary_k false) 1000 30 (pooled test_rows).

End Scenario.

Module ScenarioCsv.

(** [predict_proba] output for two test images: one row per image, one
    column per class. *)
Definition proba : Np.Ndarray2 :=
  Np.mkNdarray2 (2, 10)
    [[1; 0; 0; 0; 0; 0; 0; 0; 0; 0]; [0; 0; 0; 0.5; 0; 0; 0; 0; 0; 0.5]]%float.

(** A matrix over three classes only. *)
Definition proba3 : Np.Ndarray2 :=
  Np.mkNdarray2 (2, 3) [[1; 0; 0]; [0; 0.5; 0.5]]%float.

End ScenarioCsv.

Module ScenarioStale.
Import Toy.

(** A vocabulary with two hundred centers, left in the cache by a run with
    another [k]. *)
Definition m200 : KMeans := mkModel 200 [].

(** A descriptor set of one descriptor, which [m200] assigns to center 116. *)
Definition d116 : list (list float) := [[116%float]].

(** A vocabulary fitted on the pooled training descriptors. *)
Definition m_pool : KMeans :=
  MiniBatchKMeans_fit (vocabulary_k true) 1000 30 (pooled Scenario.train_rows).

(** The descriptor set of the first training image. *)
Definition d_first : list (list float) := surf_dense "imgs/train/c0/a.jpg" 16.

End ScenarioStale.

(** ** The model on concrete inputs *)

Example split_path :
  Py.split "/" "imgs/train/c3/img_5.jpg" = ["imgs"; "train"; "c3"; "img_5.jpg"].
Proof. reflexivity. Qed.

Example split_trailing_separator : Py.split "/" "a/" = ["a"; ""].
Proof. reflexivity. Qed.

Example last_segment_path :
  Py.last_segment "/" "imgs/test/img_7.jpg" = "img_7.jpg".
Proof. reflexivity. Qed.

Example format_obj_name :
  Py.format "objects/test/test_{}.obj" ["lbps"] =
  Some "objects/test/test_lbps.obj".
Proof. reflexivity. Qed.

Example slice_every_third : Np.slice_step 3 [0; 1; 2; 3; 4; 5; 6] = [0; 3; 6].
Proof. reflexivity. Qed.

Example bincount_padded : Np.np_bincount [1; 1; 3] 6 = [0; 2; 0; 1; 0; 0].
Proof. reflexivity. Qed.

(** A cluster index beyond [minlength] lengthens the histogram. *)
Example bincount_overflow : Np.np_bincount [1; 1; 3] 2 = [0; 2; 0; 1].
Proof. reflexivity. Qed.

Example transpose_shape :
  Np.rows (Np.transpose ScenarioCsv.proba3) =
  [[1; 0]; [0; 0.5]; [0; 0.5]]%float.
Proof. reflexivity. Qed.

Example get_images_train :
  fst (get_images true Scenario.w_empty) = Ok Scenario.train_images.
Proof. reflexivity. Qed.

Example get_features_empty_list :
  fst (get_features false [] Scenario.w_empty) = Raise ValueError.
Proof. reflexivity. Qed.

Example get_features_short_path :
  fst (get_features true ["a.jpg"] Scenario.w_empty) = Raise IndexError.
Proof. reflexivity. Qed.

(** A cold run warms the cache: the next call returns the same matrices and
    adds no decode and no fit. *)
Example cold_then_warm :
  fst (get_features false Scenario.test_images
         (snd (get_features false Scenario.test_images Scenario.w_empty))) =
  fst (get_features false Scenario.test_images Scenario.w_empty) /\
  trace (snd (get_features false Scenario.test_images
                (snd (get_features false Scenario.test_images
                        Scenario.w_empty)))) =
  trace (snd (get_features false Scenario.test_images Scenario.w_empty)).
Proof. split; reflexivity. Qed.

(** * The claims *)

(** ** Artifact store *)

(** C8: for every split and artifact kind, [get_obj] returns None, without
    raising and without touching the state, when no file exists for the key,
    and returns the unpickled artifact when the file exists. *)
Theorem get_obj_absent_or_deserialized `{E : External} train kind w :
  (fs w !! artifact_path train kind = None ->
   get_obj train kind w = (Ok None, w)) /\
  (forall o, fs w !! artifact_path train kind = Some (FPickle o) ->
   get_obj train kind w = (Ok (Some o), w)).
Proof. split; [apply get_obj_absent | intros o; apply get_obj_cached]. Qed.

Lemma get_obj_absent_or_deserialized_witness :
  get_obj false "lbps" Scenario.w_warm = (Ok None, Scenario.w_warm) /\
  get_obj true "lbps" Scenario.w_warm = (Ok (Some Scenario.l0), Scenario.w_warm).
Proof.
  split.
  - apply (proj1 (get_obj_absent_or_deserialized false "lbps" Scenario.w_warm)).
    reflexivity.
  - apply (proj2 (get_obj_absent_or_deserialized true "lbps" Scenario.w_warm)).
    reflexivity.
Defined.

(** C9: whenever a clustering model is cached for the split, [get_kmeans]
    returns it whatever [k] and [descriptors] are, fitting and writing
    nothing; and there are states where the returned model's number of
    centers differs from the histogram length derived from [k]. *)
Theorem get_kmeans_returns_cached :
  (forall (E : External) train m w,
     fs w !! artifact_path train "k_means" = Some (FPickle (OKMeans m)) ->
     forall k descriptors,
       get_kmeans k train descriptors w = (Ok (OKMeans m), w)) /\
  (exists (E : External) train m w k descriptors,
     get_kmeans k train descriptors w = (Ok (OKMeans m), w) /\
     km_centers m <> np_intp k).
Proof.
  split.
  - intros E train m w H k descriptors. unfold get_kmeans.
    erewrite bind_ok; [|by apply get_obj_cached]. done.
  - exists Toy.env, true, Scenario.m_train, Scenario.w_train_vocabulary,
      (vocabulary_k true), [].
    split; [reflexivity|]. vm_compute. lia.
Qed.

Lemma get_kmeans_returns_cached_witness :
  get_kmeans (vocabulary_k false) true [[1%float]] Scenario.w_train_vocabulary =
  (Ok (OKMeans Scenario.m_train), Scenario.w_train_vocabulary).
Proof.
  apply (proj1 get_kmeans_returns_cached Toy.env true Scenario.m_train
           Scenario.w_train_vocabulary).
  reflexivity.
Defined.

(** ** Warm cache *)

(** C3: when the split's cache directory holds exactly five [.obj] files and
    the four matrices are among them, [get_features] returns those cached
    objects as they are, the state (store and trace: no decode, no fit) is
    unchanged, and a second call on the resulting state returns the same. *)
Theorem get_features_warm_cache `{E : External} train images w h l lab s :
  obj_count train w = 5 ->
  fs w !! artifact_path train "haralicks" = Some (FPickle h) ->
  fs w !! artifact_path train "lbps" = Some (FPickle l) ->
  fs w !! artifact_path train "labels" = Some (FPickle lab) ->
  fs w !! artifact_path train "surfdescriptors" = Some (FPickle s) ->
  get_features train images w = (Ok (Some h, Some l, Some lab, Some s), w) /\
  trace (snd (get_features train images w)) = trace w /\
  get_features train images (snd (get_features train images w)) =
  get_features train images w.
Proof.
  intros H5 Hh Hl Hlab Hs.
  assert (get_features train images w =
          (Ok (Some h, Some l, Some lab, Some s), w)) as Heq.
  { unfold get_features.
    erewrite bind_ok; [|apply object_dir_file_num_eq]. rewrite H5. cbn.
    erewrite bind_ok; [|by apply get_obj_cached].
    erewrite bind_ok; [|by apply get_obj_cached].
    erewrite bind_ok; [|by apply get_obj_cached].
    erewrite bind_ok; [|by apply get_obj_cached]. done. }
  by rewrite !Heq.
Qed.

Lemma get_features_warm_cache_witness :
  get_features true Scenario.train_images Scenario.w_warm =
  (Ok (Some Scenario.h0, Some Scenario.l0, Some Scenario.lab0,
       Some Scenario.s0), Scenario.w_warm).
Proof.
  apply (get_features_warm_cache true Scenario.train_images Scenario.w_warm
           Scenario.h0 Scenario.l0 Scenario.lab0 Scenario.s0);
    reflexivity.
Defined.

(** ** Histogram encoder *)

(** C2, as amended: for every descriptor set the histogram encoder
    ([km.predict], taken to return one center index per descriptor, then
    [np.bincount] with [minlength=k]) returns, without raising, a vector [h]
    of length [max K (1 + largest assigned index)], K being [np_intp k];
    entry [j] is the number of descriptors assigned to center [j], so zero
    for an unused center. The length is exactly K whenever the vocabulary in
    use has at most K centers, and for an empty descriptor set [h] is the
    all-zero vector of length K. *)
Theorem histogram_row_shape `{E : External} m k d w :
  exists h,
    histogram_row (OKMeans m) k d w = (Ok h, w) /\
    length h = Nat.max (np_intp k) (bound (km_predict m d)) /\
    (forall j, j < length h ->
       h !! j = Some (count_occ Nat.eq_dec (km_predict m d) j)) /\
    (km_centers m <= np_intp k -> length h = np_intp k) /\
    (d = [] -> h = replicate (np_intp k) 0).
Proof.
  exists (encode m (np_intp k) d).
  split; [apply histogram_row_eq|]. split; [apply length_np_bincount|].
  split; [|split].
  - intros j Hj. unfold encode in *. rewrite length_np_bincount in Hj.
    by apply lookup_np_bincount.
  - apply length_encode.
  - intros ->. unfold encode.
    pose proof (km_predict_length m []) as Hp.
    destruct (km_predict m []); [|done]. apply np_bincount_nil.
Qed.

Lemma histogram_row_shape_witness :
  exists h,
    histogram_row (OKMeans ScenarioStale.m_pool) (vocabulary_k true)
      ScenarioStale.d_first Scenario.w_empty = (Ok h, Scenario.w_empty) /\
    length ScenarioStale.d_first = 19 /\
    length h = Toy.intp (vocabulary_k true).
Proof.
  destruct (histogram_row_shape (E := Toy.env) ScenarioStale.m_pool
              (vocabulary_k true) ScenarioStale.d_first Scenario.w_empty)
    as (h & Hrow & _ & _ & Hle & _).
  exists h. split; [exact Hrow|]. split; [reflexivity|].
  apply Hle. vm_compute. lia.
Defined.

(** C2, counterexample: with a cached vocabulary of 200 centers and the
    training split's [k] (histogram length 105), a descriptor assigned to
    center 116 gives a row of length 117, which is neither the vocabulary
    size nor the length derived from [k]. *)
Lemma histogram_row_stale_vocabulary :
  exists h,
    histogram_row (OKMeans ScenarioStale.m200) (vocabulary_k true)
      ScenarioStale.d116 Scenario.w_empty = (Ok h, Scenario.w_empty) /\
    length h = 117 /\
    Toy.n_centers ScenarioStale.m200 = 200 /\
    Toy.intp (vocabulary_k true) = 105.
Proof.
  eexists. split; [reflexivity|].
  split; [|split]; vm_compute; reflexivity.
Qed.

(** ** Vocabulary size *)

(** C4 (evaluation of the code): the [k] handed to the clustering step is the
    unrounded float square root of the integer quotient (105.88... for the
    training split, 199.65... for the test split), not the nearest integer
    106 (resp. 200) that [round(sqrt(N/2))] denotes; truncated it gives 105
    (resp. 199). *)
Theorem vocabulary_k_not_rounded :
  spec_vocabulary_size 22425 = 106%Z /\
  spec_vocabulary_size 79727 = 200%Z /\
  PrimFloat.ltb 105 (vocabulary_k true) = true /\
  PrimFloat.ltb (vocabulary_k true) 106 = true /\
  PrimFloat.ltb 199 (vocabulary_k false) = true /\
  PrimFloat.ltb (vocabulary_k false) 200 = true /\
  vocabulary_k true <> Np.float_of_int (spec_vocabulary_size 22425) /\
  vocabulary_k false <> Np.float_of_int (spec_vocabulary_size 79727) /\
  Np.trunc (vocabulary_k true) = Some 105%Z /\
  Np.trunc (vocabulary_k false) = Some 199%Z.
Proof.
  repeat split; try (vm_compute; reflexivity);
    vm_compute; intros H; discriminate H.
Qed.

(** ** Vocabulary of the test split *)

(** C1, as amended: when [get_features] computes the test split from
    scratch, the model it encodes the test histograms with is the one
    persisted under the test split's own namespace when the call returns:
    the model cached there beforehand, in which case nothing is fitted, or,
    when none is cached there, a model newly fitted on the test split's own
    pooled descriptors with the test split's [k]. *)
Theorem test_vocabulary_is_per_split `{E : External} images w rows :
  obj_count false w <> 5 ->
  images <> [] ->
  mapM (extract false) images = Some rows ->
  vocabulary_ready false w ->
  exists m hs ls labs w',
    get_features false images w =
    (Ok (hs, ls, labs,
         Some (ONdarray
                 (map (fun r => to_float_row
                                  (encode m (np_intp (vocabulary_k false))
                                     (row_descriptors r))) rows))), w') /\
    fs w' !! artifact_path false "k_means" = Some (FPickle (OKMeans m)) /\
    (fs w !! artifact_path false "k_means" = Some (FPickle (OKMeans m)) /\
     trace w' = trace w ++ decodes images
     \/
     fs w !! artifact_path false "k_means" = None /\
     m = MiniBatchKMeans_fit (vocabulary_k false) 1000 30 (pooled rows) /\
     trace w' =
     trace w ++ decodes images ++ [EvFit (vocabulary_k false) (pooled rows)]).
Proof.
  intros H5 Hne Hrows Hk.
  exists (chosen_model false w rows). do 3 eexists.
  exists (scratch_world false images rows w).
  split; [by apply get_features_scratch|].
  unfold scratch_world, after_kmeans, chosen_model, vocabulary_ready in *.
  cbn [fs trace].
  destruct (fs w !! artifact_path false "k_means") as [[[]| |]|] eqn:Hf;
    try done.
  - split; [|by left]. cbn [fs]. by rewrite !lookup_insert_ne, Hf.
  - split; [|right; by rewrite <-app_assoc]. cbn [fs].
    rewrite !lookup_insert_ne by done. by rewrite lookup_insert_eq.
Qed.

Lemma test_vocabulary_is_per_split_witness :
  exists m hs ls labs w',
    get_features false Scenario.test_images Scenario.w_train_vocabulary =
    (Ok (hs, ls, labs,
         Some (ONdarray
                 (map (fun r => to_float_row
                                  (encode m (Toy.intp (vocabulary_k false))
                                     (row_descriptors r)))
                    Scenario.test_rows))), w') /\
    fs w' !! artifact_path false "k_means" = Some (FPickle (OKMeans m)) /\
    (fs Scenario.w_train_vocabulary !! artifact_path false "k_means" =
     Some (FPickle (OKMeans m)) /\
     trace w' =
     trace Scenario.w_train_vocabulary ++ decodes Scenario.test_images
     \/
     fs Scenario.w_train_vocabulary !! artifact_path false "k_means" = None /\
     m = MiniBatchKMeans_fit (vocabulary_k false) 1000 30
           (pooled Scenario.test_rows) /\
     trace w' =
     trace Scenario.w_train_vocabulary ++ decodes Scenario.test_images ++
     [EvFit (vocabulary_k false) (pooled Scenario.test_rows)]).
Proof.
  apply (test_vocabulary_is_per_split Scenario.test_images
           Scenario.w_train_vocabulary Scenario.test_rows).
  - assert (obj_count false Scenario.w_train_vocabulary = 0) as ->
      by reflexivity.
    lia.
  - discriminate.
  - reflexivity.
  - unfold vocabulary_ready.
    assert (fs Scenario.w_train_vocabulary !! artifact_path false "k_means" =
            None) as -> by reflexivity.
    exact I.
Defined.

(** C1, counterexample: with the training vocabulary persisted and the test
    namespace empty, processing the test split fits a new model on the test
    descriptors, persists it under the test namespace and encodes the test
    histograms with it; that model is not the training one and the
    histograms are not those the training vocabulary gives. *)
Lemma test_split_refits_vocabulary :
  fs Scenario.w_train_vocabulary !! artifact_path true "k_means" =
  Some (FPickle (OKMeans Scenario.m_train)) /\
  trace Scenario.w_train_vocabulary = [] /\
  exists hs ls labs hists w',
    get_features false Scenario.test_images Scenario.w_train_vocabulary =
    (Ok (hs, ls, labs, Some (ONdarray hists)), w') /\
    trace w' =
    decodes Scenario.test_images ++
    [EvFit (vocabulary_k false) (pooled Scenario.test_rows)] /\
    fs w' !! artifact_path false "k_means" =
    Some (FPickle (OKMeans Scenario.m_test)) /\
    fs w' !! artifact_path true "k_means" =
    Some (FPickle (OKMeans Scenario.m_train)) /\
    Scenario.m_test <> Scenario.m_train /\
    hists =
    map (fun r => to_float_row
                    (encode Scenario.m_test (Toy.intp (vocabulary_k false))
                       (row_descriptors r))) Scenario.test_rows /\
    hists <>
    map (fun r => to_float_row
                    (encode Scenario.m_train (Toy.intp (vocabulary_k false))
                       (row_descriptors r))) Scenario.test_rows.
Proof.
  split; [reflexivity|]. split; [reflexivity|].
  do 5 eexists. split.
  - apply (get_features_scratch false Scenario.test_images
             Scenario.w_train_vocabulary Scenario.test_rows).
    + assert (obj_count false Scenario.w_train_vocabulary = 0) as ->
        by reflexivity.
      lia.
    + discriminate.
    + reflexivity.
    + unfold vocabulary_ready.
      assert (fs Scenario.w_train_vocabulary !! artifact_path false "k_means"
              = None) as -> by reflexivity.
      exact I.
  - split; [reflexivity|]. split; [reflexivity|]. split; [reflexivity|].
    split; [discriminate|]. split; [reflexivity|].
    unfold histograms.
    assert (chosen_model false Scenario.w_train_vocabulary Scenario.test_rows
            = Scenario.m_test) as -> by reflexivity.
    vm_compute. intros H. discriminate H.
Qed.

(** ** Image order and row alignment *)

(** C5: [get_images] returns the listed paths in lexicographically sorted
    order, whatever order the directories are listed in, and every training
    path has its class directory as third segment. For a split computed from
    scratch whose images all decode (and, for training, have a third path
    segment), [get_features] returns matrices with one row per image, row [i]
    of the texture, pattern and histogram matrices being computed from
    [images[i]] (the histogram under one model for all rows), and, for the
    training split, [labels[i]] is the third segment of [images[i]]. *)
Theorem rows_follow_image_order `{E : External} :
  (forall train w,
     get_images train w = (Ok (Py.sort (globbed train)), w) /\
     StronglySorted String.le (Py.sort (globbed train)) /\
     Py.sort (globbed train) ≡ₚ globbed train /\
     (forall listing, listing ≡ₚ globbed train ->
        Py.sort listing = Py.sort (globbed train))) /\
  (forall f, In f (Py.sort (globbed true)) ->
     exists c name, In c classes /\
       f = ("imgs/train/" +:+ c) +:+ "/" +:+ name /\
       Py.split "/" f !! 2 = Some c) /\
  (forall train images w,
     obj_count train w <> 5 ->
     images <> [] ->
     Forall (fun f => is_Some (extract train f)) images ->
     vocabulary_ready train w ->
     exists m hs ls labs hists w',
       get_features train images w =
       (Ok (Some (ONdarray hs), Some (ONdarray ls), Some (OLabels labs),
            Some (ONdarray hists)), w') /\
       length hs = length images /\
       length ls = length images /\
       length hists = length images /\
       (forall i f, images !! i = Some f ->
          exists r, extract train f = Some r /\
            hs !! i = Some (row_texture r) /\
            ls !! i = Some (row_pattern r) /\
            hists !! i =
            Some (to_float_row (encode m (np_intp (vocabulary_k train))
                                  (row_descriptors r)))) /\
       (train = true ->
        length labs = length images /\
        forall i f, images !! i = Some f ->
          is_Some (labs !! i) /\ labs !! i = Py.split "/" f !! 2)).
Proof.
  split; [|split].
  - intros train w. split; [apply get_images_eq|].
    split; [apply sort_sorted|]. split; [apply sort_permutation|].
    intros listing H. by apply sort_deterministic.
  - intros f Hf.
    assert (In f (globbed true)) as Hg.
    { apply list_elem_of_In. rewrite <-(sort_permutation (globbed true)).
      by apply list_elem_of_In. }
    apply globbed_train_shape in Hg as (c & name & Hc & _ & -> & Hs).
    by exists c, name.
  - intros train images w H5 Hne Hall Hk.
    destruct (proj2 (mapM_is_Some (extract train) images)) as [rows Hrows].
    { eapply Forall_impl; [exact Hall|]. done. }
    pose proof (mapM_Some_1 _ _ _ Hrows) as HF.
    pose proof (Forall2_length _ _ _ HF) as Hlen.
    exists (chosen_model train w rows). do 4 eexists.
    exists (scratch_world train images rows w).
    split; [by apply get_features_scratch|].
    unfold histograms. rewrite !length_map.
    split; [done|]. split; [done|]. split; [done|]. split.
    + intros i f Hi.
      destruct (Forall2_lookup_l _ _ _ _ _ HF Hi) as (r & Hr & Hfr).
      exists r. rewrite !list_lookup_fmap, Hr. done.
    + intros ->. apply train_labels_aligned in HF.
      split; [symmetry; by eapply Forall2_length|].
      intros i f Hi.
      destruct (Forall2_lookup_l _ _ _ _ _ HF Hi) as (lab & Hl & Hs).
      rewrite Hl, Hs. by eauto.
Qed.

Lemma rows_follow_image_order_witness :
  exists (m : @KMeans Toy.env) hs ls labs hists w',
    get_features true Scenario.train_images Scenario.w_empty =
    (Ok (Some (ONdarray hs), Some (ONdarray ls), Some (OLabels labs),
         Some (ONdarray hists)), w') /\
    length hs = length Scenario.train_images /\
    length ls = length Scenario.train_images /\
    length hists = length Scenario.train_images /\
    (forall (i : nat) f, Scenario.train_images !! i = Some f ->
       exists r, extract (E := Toy.env) true f = Some r /\
         hs !! i = Some (row_texture r) /\
         ls !! i = Some (row_pattern r) /\
         hists !! i =
         Some (to_float_row (encode m (Toy.intp (vocabulary_k true))
                               (row_descriptors r)))) /\
    (true = true ->
     length labs = length Scenario.train_images /\
     forall (i : nat) f, Scenario.train_images !! i = Some f ->
       is_Some (labs !! i) /\ labs !! i = Py.split "/" f !! 2).
Proof.
  apply (proj2 (proj2 (rows_follow_image_order (E := Toy.env)))
           true Scenario.train_images Scenario.w_empty).
  - assert (obj_count true Scenario.w_empty = 0) as -> by reflexivity. lia.
  - discriminate.
  - repeat constructor; eexists; reflexivity.
  - exact I.
Defined.

(** ** Pooled descriptors *)

(** C6: when a split is computed from scratch and no model is cached for it,
    the one clustering fit of the run receives [pool], the concatenation in
    image order of the images' descriptor sets ([rows] follows [images])
    cut down to its rows 0, 64, 128, ...: position [i] of [pool] is position
    [64 * i] of the concatenation. *)
Theorem pooled_descriptors_every_64th `{E : External} train images w :
  obj_count train w <> 5 ->
  images <> [] ->
  Forall (fun f => is_Some (extract train f)) images ->
  fs w !! artifact_path train "k_means" = None ->
  exists rows res w',
    Forall2 (fun f r => extract train f = Some r) images rows /\
    get_features train images w = (Ok res, w') /\
    trace w' =
    trace w ++ decodes images ++
    [EvFit (vocabulary_k train)
       (Np.slice_step 64 (concat (map row_descriptors rows)))] /\
    forall i,
      Np.slice_step 64 (concat (map row_descriptors rows)) !! i =
      concat (map row_descriptors rows) !! (64 * i).
Proof.
  intros H5 Hne Hall Hk.
  destruct (proj2 (mapM_is_Some (extract train) images)) as [rows Hrows].
  { eapply Forall_impl; [exact Hall|]. done. }
  exists rows. do 2 eexists. split; [by apply mapM_Some_1|].
  split.
  { apply get_features_scratch; [done..|].
    unfold vocabulary_ready. by rewrite Hk. }
  split.
  - unfold scratch_world, after_kmeans. cbn [fs trace]. rewrite Hk.
    cbn [trace]. by rewrite <-app_assoc.
  - intros i. apply lookup_slice_step. lia.
Qed.

Lemma pooled_descriptors_every_64th_witness :
  exists rows res w',
    Forall2 (fun f r => extract (E := Toy.env) false f = Some r)
      Scenario.test_images rows /\
    get_features false Scenario.test_images Scenario.w_empty = (Ok res, w') /\
    trace w' =
    trace Scenario.w_empty ++ decodes Scenario.test_images ++
    [EvFit (vocabulary_k false)
       (Np.slice_step 64 (concat (map row_descriptors rows)))] /\
    forall i : nat,
      Np.slice_step 64 (concat (map row_descriptors rows)) !! i =
      concat (map row_descriptors rows) !! (64 * i).
Proof.
  apply (pooled_descriptors_every_64th (E := Toy.env) false
           Scenario.test_images Scenario.w_empty).
  - assert (obj_count false Scenario.w_empty = 0) as -> by reflexivity. lia.
  - discriminate.
  - repeat constructor; eexists; reflexivity.
  - reflexivity.
Defined.

(** ** Submission writer *)

(** C7: [create_submission] succeeds exactly when it is given ten per-class
    columns as long as the image list, and every CSV it writes has the header
    img, c0, ..., c9 and one row per image, in the order of the image list:
    row [i] holds the last path component of [images[i]] (for a path
    [dir/name] with [name] free of separators this is [name]; a path without
    separator is taken whole) followed by the [i]-th entry of each class
    column, c0 first. *)
Theorem submission_csv_layout `{E : External} featureType preds images w :
  (length (class_columns preds) = 10 /\
   Forall (fun c => length c = length images) (class_columns preds)
   <-> exists w', create_submission featureType preds images w = (Ok tt, w')) /\
  (forall w',
     create_submission featureType preds images w = (Ok tt, w') ->
     exists rows,
       w' = mkWorld
              (<[submission_path featureType :=
                   FCsv ["img"; "c0"; "c1"; "c2"; "c3"; "c4"; "c5"; "c6"; "c7";
                         "c8"; "c9"] rows]> (fs w))
              (trace w) /\
       length rows = length images /\
       (forall (i : nat) f, images !! i = Some f ->
          rows !! i =
          Some (CStr (Py.last_segment "/" f)
                :: map (fun c => CNum (nth i c 0%float)) (class_columns preds))) /\
       (forall (i : nat) dir name,
          images !! i = Some (dir +:+ "/" +:+ name) ->
          Py.no_slash name = true ->
          rows !! i =
          Some (CStr name
                :: map (fun c => CNum (nth i c 0%float)) (class_columns preds))) /\
       (forall (i : nat) name,
          images !! i = Some name ->
          Py.no_slash name = true ->
          rows !! i =
          Some (CStr name
                :: map (fun c => CNum (nth i c 0%float)) (class_columns preds)))).
Proof.
  split.
  - split.
    + intros [H10 Hlen]. eexists. by apply create_submission_ok.
    + intros [w' H]. by eapply create_submission_inv.
  - intros w' H.
    destruct (create_submission_inv _ _ _ _ _ H) as [H10 Hlen].
    rewrite (create_submission_ok _ _ _ _ H10 Hlen) in H.
    injection H as <-. eexists. split; [reflexivity|].
    rewrite length_map, length_seq. split; [done|].
    assert (forall (i : nat) f, images !! i = Some f ->
              map (fun i =>
                     CStr (nth i (map (Py.last_segment "/") images) "")
                     :: map (fun c => CNum (nth i c 0%float))
                          (class_columns preds))
                (seq 0 (length images)) !! i =
              Some (CStr (Py.last_segment "/" f)
                    :: map (fun c => CNum (nth i c 0%float))
                         (class_columns preds))) as Hrow.
    { intros i f Hi. pose proof (lookup_lt_Some _ _ _ Hi) as Hlt.
      rewrite list_lookup_fmap, lookup_seq_lt by done. cbn. do 3 f_equal.
      apply nth_lookup_Some. by rewrite list_lookup_fmap, Hi. }
    split; [exact Hrow|]. split.
    + intros i dir name Hi Hn.
      by rewrite (Hrow i _ Hi), (last_segment_app dir name Hn).
    + intros i name Hi Hn.
      by rewrite (Hrow i _ Hi), (last_segment_no_slash name Hn).
Qed.

Lemma submission_csv_layout_witness :
  exists rows,
    snd (create_submission "surf" (PredsArray ScenarioCsv.proba)
           Scenario.test_images Scenario.w_empty) =
    mkWorld
      (<[submission_path "surf" :=
           FCsv ["img"; "c0"; "c1"; "c2"; "c3"; "c4"; "c5"; "c6"; "c7"; "c8";
                 "c9"] rows]> (fs Scenario.w_empty))
      (trace Scenario.w_empty) /\
    length rows = length Scenario.test_images /\
    rows !! 1 =
    Some (CStr "t2.jpg"
          :: map (fun c => CNum (nth 1 c 0%float))
               (class_columns (PredsArray ScenarioCsv.proba))).
Proof.
  destruct (proj2 (submission_csv_layout (E := Toy.env) "surf"
                     (PredsArray ScenarioCsv.proba) Scenario.test_images
                     Scenario.w_empty) _ eq_refl)
    as (rows & Hw & Hlen & _ & Hname & _).
  exists rows. split; [exact Hw|]. split; [exact Hlen|].
  apply (Hname 1 "imgs/test" "t2.jpg"); reflexivity.
Defined.

(** C10: [create_submission] unpacks exactly ten per-class columns (for a
    matrix: the rows of its transpose, as many as the matrix has columns), so
    with any other number of classes it raises ValueError and leaves the
    state as it was, writing no CSV; it can only succeed with ten. *)
Theorem create_submission_needs_ten_classes `{E : External}
    featureType preds images w :
  (forall a, preds = PredsArray a ->
     length (class_columns preds) = snd (Np.shape a)) /\
  (forall l, preds = PredsList l -> class_columns preds = l) /\
  (length (class_columns preds) <> 10 ->
   create_submission featureType preds images w = (Raise ValueError, w)) /\
  (forall w',
     create_submission featureType preds images w = (Ok tt, w') ->
     length (class_columns preds) = 10).
Proof.
  split; [intros a ->; apply class_columns_array|].
  split; [by intros l ->|].
  split; [apply create_submission_raise|].
  intros w' H. by eapply create_submission_inv.
Qed.

Lemma create_submission_needs_ten_classes_witness :
  create_submission "surf" (PredsArray ScenarioCsv.proba3)
    Scenario.test_images Scenario.w_empty =
  (Raise ValueError, Scenario.w_empty).
Proof.
  apply (proj1 (proj2 (proj2
           (create_submission_needs_ten_classes (E := Toy.env) "surf"
              (PredsArray ScenarioCsv.proba3) Scenario.test_images
              Scenario.w_empty)))).
  cbn. lia.
Defined.

(** * Further properties of the code *)

(** ** Artifact store: keys and round trips *)

Section StoreMore.
Context `{E : External}.

(** What [get_obj] returns, read off the store. *)
Definition stored (w : World) (train : bool) (kind : string) : Res (option Obj) :=
  match fs w !! artifact_path train kind with
  | None => Ok None
  | Some (FPickle o) => Ok (Some o)
  | Some _ => Raise UnpicklingError
  end.

Lemma get_obj_stored train kind w :
  get_obj train kind w = (stored w train kind, w).
Proof.
  unfold stored.
  destruct (fs w !! artifact_path train kind) as [[o| |]|] eqn:H.
  - by apply get_obj_cached.
  - unfold get_obj. rewrite obj_filename_eq.
    unfold mbind, M_bind, bind, of_option, ret, os_path_exists, pickle_load.
    cbn. rewrite H. rewrite bool_decide_eq_true_2; [|by eexists]. cbn.
    by rewrite H.
  - unfold get_obj. rewrite obj_filename_eq.
    unfold mbind, M_bind, bind, of_option, ret, os_path_exists, pickle_load.
    cbn. rewrite H. rewrite bool_decide_eq_true_2; [|by eexists]. cbn.
    by rewrite H.
  - by apply get_obj_absent.
Qed.

Lemma train_test_paths_differ kind kind' :
  artifact_path true kind <> artifact_path false kind'.
Proof.
  intros H. apply (f_equal (String.get 9)) in H. cbv in H. discriminate H.
Qed.

(** Distinct (split, kind) keys name distinct files. *)
Lemma artifact_path_inj train kind train' kind' :
  artifact_path train kind = artifact_path train' kind' ->
  train = train' /\ kind = kind'.
Proof.
  destruct train, train'; intros H.
  - split; [done|]. unfold artifact_path in H.
    apply (inj (String.append "objects/train/train_")) in H.
    by apply app_inj_r in H.
  - by apply train_test_paths_differ in H.
  - symmetry in H. by apply train_test_paths_differ in H.
  - split; [done|]. unfold artifact_path in H.
    apply (inj (String.append "objects/test/test_")) in H.
    by apply app_inj_r in H.
Qed.

End StoreMore.

(** X1: an artifact saved under a (split, kind) key is what [get_obj] returns
    for that key afterwards, and every other key reads as before: neither
    another kind nor the other split's namespace is disturbed. *)
Theorem save_obj_get_obj `{E : External} train kind o w train' kind' :
  fst (get_obj train kind (snd (save_obj train kind o w))) = Ok (Some o) /\
  ((train', kind') <> (train, kind) ->
   fst (get_obj train' kind' (snd (save_obj train kind o w))) =
   fst (get_obj train' kind' w)).
Proof.
  rewrite save_obj_eq. cbn [snd]. split.
  - rewrite get_obj_stored. unfold stored. cbn [fst fs].
    by rewrite lookup_insert_eq.
  - intros Hne. rewrite !get_obj_stored. unfold stored. cbn [fst fs].
    rewrite lookup_insert_ne; [done|].
    intros [-> ->]%artifact_path_inj. done.
Qed.

Lemma save_obj_get_obj_witness :
  fst (get_obj true "lbps"
         (snd (save_obj true "lbps" Scenario.l0 Scenario.w_empty))) =
  Ok (Some Scenario.l0) /\
  fst (get_obj false "lbps"
         (snd (save_obj true "lbps" Scenario.l0 Scenario.w_empty))) =
  fst (get_obj false "lbps" Scenario.w_empty).
Proof.
  pose proof (save_obj_get_obj (E := Toy.env) true "lbps" Scenario.l0
                Scenario.w_empty false "lbps") as [H1 H2].
  split; [exact H1|]. apply H2. discriminate.
Defined.

(** ** Vocabulary: fitted once, then served from the store *)

(** X2: with no model cached for the split, [get_kmeans] fits exactly one
    model, with the [k] and the descriptors it was given, and persists it
    under the split's key; every later call for that split, whatever its [k]
    and descriptors, returns that same model and neither fits nor writes. *)
Theorem get_kmeans_fits_once `{E : External} k train descriptors w :
  fs w !! artifact_path train "k_means" = None ->
  exists w',
    get_kmeans k train descriptors w =
    (Ok (OKMeans (MiniBatchKMeans_fit k 1000 30 descriptors)), w') /\
    trace w' = trace w ++ [EvFit k descriptors] /\
    fs w' =
    <[artifact_path train "k_means" :=
        FPickle (OKMeans (MiniBatchKMeans_fit k 1000 30 descriptors))]> (fs w) /\
    forall k' descriptors',
      get_kmeans k' train descriptors' w' =
      (Ok (OKMeans (MiniBatchKMeans_fit k 1000 30 descriptors)), w').
Proof.
  intros H. eexists. split.
  { unfold get_kmeans. erewrite bind_ok; [|by apply get_obj_absent].
    unfold emit, mbind, M_bind, bind, ret. rewrite save_obj_eq. reflexivity. }
  cbn [fs trace]. split; [done|]. split; [done|].
  intros k' descriptors'. unfold get_kmeans.
  erewrite bind_ok; last first.
  { apply get_obj_cached. cbn [fs]. by rewrite lookup_insert_eq. }
  reflexivity.
Qed.

Lemma get_kmeans_fits_once_witness :
  exists w',
    get_kmeans (vocabulary_k false) false [[1%float]] Scenario.w_train_vocabulary =
    (Ok (OKMeans (MiniBatchKMeans_fit (vocabulary_k false) 1000 30 [[1%float]])),
     w') /\
    trace w' =
    trace Scenario.w_train_vocabulary ++ [EvFit (vocabulary_k false) [[1%float]]] /\
    fs w' =
    <[artifact_path false "k_means" :=
        FPickle (OKMeans (MiniBatchKMeans_fit (vocabulary_k false) 1000 30
                            [[1%float]]))]> (fs Scenario.w_train_vocabulary) /\
    forall k' descriptors',
      get_kmeans k' false descriptors' w' =
      (Ok (OKMeans (MiniBatchKMeans_fit (vocabulary_k false) 1000 30
                      [[1%float]])), w').
Proof.
  apply (get_kmeans_fits_once (E := Toy.env) (vocabulary_k false) false
           [[1%float]] Scenario.w_train_vocabulary).
  reflexivity.
Defined.

(** ** What a from-scratch run leaves in the store *)

Section ScratchStore.
Context `{E : External}.

Lemma artifact_path_ne train kind kind' :
  kind <> kind' -> artifact_path train kind <> artifact_path train kind'.
Proof. intros Hne H. by apply artifact_path_inj in H as [_ ?]. Qed.

Lemma scratch_world_lookup_k_means train images rows w :
  vocabulary_ready train w ->
  fs (scratch_world train images rows w) !! artifact_path train "k_means" =
  Some (FPickle (OKMeans (chosen_model train w rows))).
Proof.
  intros Hk. unfold scratch_world, after_kmeans, chosen_model,
    vocabulary_ready in *. cbn [fs trace].
  rewrite !lookup_insert_ne by (by apply artifact_path_ne).
  destruct (fs w !! artifact_path train "k_means") as [[[]| |]|] eqn:Hf;
    try done; cbn [fs].
  by rewrite lookup_insert_eq.
Qed.

Lemma scratch_world_ready train images rows w :
  vocabulary_ready train w ->
  vocabulary_ready train (scratch_world train images rows w).
Proof.
  intros Hk. unfold vocabulary_ready at 1.
  rewrite scratch_world_lookup_k_means by done.
  by apply chosen_model_centers.
Qed.

Lemma scratch_world_chosen train images rows rows' w :
  vocabulary_ready train w ->
  chosen_model train (scratch_world train images rows w) rows' =
  chosen_model train w rows.
Proof.
  intros Hk. unfold chosen_model at 1.
  by rewrite scratch_world_lookup_k_means.
Qed.

End ScratchStore.

(** X3: what a from-scratch run returns is what it leaves in the store: read
    back with [get_obj], the four artifacts of the split are the four
    returned matrices, and the split's [k_means] entry is a fitted model. *)
Theorem get_features_persists_results `{E : External} train images w :
  obj_count train w <> 5 ->
  images <> [] ->
  Forall (fun f => is_Some (extract train f)) images ->
  vocabulary_ready train w ->
  exists haralicks lbps labels surf_descriptors w',
    get_features train images w =
    (Ok (haralicks, lbps, labels, surf_descriptors), w') /\
    fst (get_obj train "haralicks" w') = Ok haralicks /\
    fst (get_obj train "lbps" w') = Ok lbps /\
    fst (get_obj train "labels" w') = Ok labels /\
    fst (get_obj train "surfdescriptors" w') = Ok surf_descriptors /\
    exists m, fst (get_obj train "k_means" w') = Ok (Some (OKMeans m)).
Proof.
  intros H5 Hne Hall Hk.
  destruct (proj2 (mapM_is_Some (extract train) images)) as [rows Hrows].
  { eapply Forall_impl; [exact Hall|]. done. }
  do 5 eexists. split; [by apply get_features_scratch|].
  rewrite !get_obj_stored. unfold stored. cbn [fst].
  rewrite scratch_world_lookup_k_means by done.
  unfold scratch_world. cbn [fs].
  rewrite lookup_insert_ne by (by apply artifact_path_ne).
  rewrite lookup_insert_ne by (by apply artifact_path_ne).
  rewrite lookup_insert_eq.
  rewrite lookup_insert_ne by (by apply artifact_path_ne).
  rewrite lookup_insert_eq.
  rewrite lookup_insert_eq.
  rewrite !lookup_insert_ne by (by apply artifact_path_ne).
  rewrite lookup_insert_eq. by eauto 10.
Qed.

Lemma get_features_persists_results_witness :
  exists haralicks lbps labels surf_descriptors w',
    get_features true Scenario.train_images Scenario.w_empty =
    (Ok (haralicks, lbps, labels, surf_descriptors), w') /\
    fst (get_obj true "haralicks" w') = Ok haralicks /\
    fst (get_obj true "lbps" w') = Ok lbps /\
    fst (get_obj true "labels" w') = Ok labels /\
    fst (get_obj true "surfdescriptors" w') = Ok surf_descriptors /\
    exists m, fst (get_obj true "k_means" w') = Ok (Some (OKMeans m)).
Proof.
  apply (get_features_persists_results (E := Toy.env) true
           Scenario.train_images Scenario.w_empty).
  - assert (obj_count true Scenario.w_empty = 0) as -> by reflexivity. lia.
  - discriminate.
  - repeat constructor; eexists; reflexivity.
  - exact I.
Defined.

(** ** The file count of the cache directory *)

Section FileCount.
Context `{E : External}.

(** Whether a path is an [.obj] entry directly under the split's directory. *)
Definition counted (train : bool) (key : string) : bool :=
  match Py.strip_prefix (objects_path train) key with
  | Some name => Py.no_slash name && Py.endswith name ".obj"
  | None => false
  end.

Lemma obj_count_alt train w :
  obj_count train w =
  length (filter (fun kv : string * File => counted train (fst kv) = true)
            (map_to_list (fs w))).
Proof.
  unfold obj_count. induction (map_to_list (fs w)) as [|[key v] l IH]; [done|].
  cbn [omap list_omap fst].
  destruct (Py.strip_prefix (objects_path train) key) as [name|] eqn:Hp.
  - destruct (Py.no_slash name) eqn:Hn.
    + rewrite (filter_cons_True (fun name => Py.no_slash name = true)) by done.
      destruct (Py.endswith name ".obj") eqn:He.
      * rewrite !filter_cons_True; [cbn [length]; by rewrite IH|..].
        -- unfold counted. cbn [fst]. by rewrite Hp, Hn, He.
        -- done.
      * rewrite !filter_cons_False; [done|..].
        -- unfold counted. cbn [fst]. by rewrite Hp, Hn, He.
        -- by rewrite He.
    + rewrite (filter_cons_False (fun name => Py.no_slash name = true))
        by (by rewrite Hn).
      rewrite filter_cons_False; [done|].
      unfold counted. cbn [fst]. by rewrite Hp, Hn.
  - rewrite filter_cons_False; [done|].
    unfold counted. cbn [fst]. by rewrite Hp.
Qed.

Lemma obj_count_insert_absent train (m : gmap string File) key v t t' :
  m !! key = None ->
  obj_count train (mkWorld (<[key := v]> m) t) =
  (if counted train key then 1 else 0) + obj_count train (mkWorld m t').
Proof.
  intros H. rewrite !obj_count_alt. cbn [fs].
  rewrite (map_to_list_insert m key v H).
  destruct (counted train key) eqn:Hc.
  - by rewrite filter_cons_True.
  - rewrite filter_cons_False; [done|]. cbn [fst]. by rewrite Hc.
Qed.

Lemma obj_count_insert_present train (m : gmap string File) key v v0 t t' :
  m !! key = Some v0 ->
  obj_count train (mkWorld (<[key := v]> m) t) = obj_count train (mkWorld m t').
Proof.
  intros H.
  rewrite <-(insert_delete_eq m key v).
  rewrite <-(insert_id m key v0 H) at 2.
  rewrite <-(insert_delete_eq m key v0).
  rewrite (obj_count_insert_absent train (delete key m) key v t t')
    by apply lookup_delete_eq.
  by rewrite (obj_count_insert_absent train (delete key m) key v0 t' t')
    by apply lookup_delete_eq.
Qed.

Lemma obj_count_insert_le train (m : gmap string File) key v t t' :
  obj_count train (mkWorld m t') <=
  obj_count train (mkWorld (<[key := v]> m) t).
Proof.
  destruct (m !! key) eqn:H.
  - by erewrite obj_count_insert_present.
  - rewrite (obj_count_insert_absent train m key v t t') by done. lia.
Qed.

Lemma obj_count_present train (m : gmap string File) key v t :
  m !! key = Some v -> counted train key = true ->
  1 <= obj_count train (mkWorld m t).
Proof.
  intros H Hc. rewrite <-(insert_id m key v H), <-(insert_delete_eq m key v).
  rewrite (obj_count_insert_absent train (delete key m) key v t t)
    by apply lookup_delete_eq.
  rewrite Hc. lia.
Qed.

Lemma obj_count_trace train m t t' :
  obj_count train (mkWorld m t) = obj_count train (mkWorld m t').
Proof. reflexivity. Qed.

End FileCount.

Section CacheCompleteness.
Context `{E : External}.

(** The five artifact kinds of a split. *)
Definition artifact_kinds : list string :=
  ["k_means"; "surfdescriptors"; "haralicks"; "lbps"; "labels"].

Lemma counted_artifact train kind :
  In kind artifact_kinds -> counted train (artifact_path train kind) = true.
Proof.
  intros H. cbn in H.
  repeat (destruct H as [<-|H]; [by destruct train|]). done.
Qed.

Lemma obj_count_delete train (m : gmap string File) key v t :
  m !! key = Some v -> counted train key = true ->
  obj_count train (mkWorld m t) =
  S (obj_count train (mkWorld (delete key m) t)).
Proof.
  intros H Hc.
  rewrite <-(insert_id m key v H) at 1. rewrite <-(insert_delete_eq m key v).
  rewrite (obj_count_insert_absent train (delete key m) key v t t)
    by apply lookup_delete_eq.
  by rewrite Hc.
Qed.

(** A from-scratch run never lowers the count. *)
Lemma scratch_world_count_le train images rows w :
  obj_count train w <= obj_count train (scratch_world train images rows w).
Proof.
  unfold scratch_world. cbn zeta.
  do 4 (etrans; [|apply (obj_count_insert_le train _ _ _ _ [])]).
  unfold after_kmeans. cbn [fs].
  destruct (fs w !! artifact_path train "k_means"); cbn [fs].
  - done.
  - apply (obj_count_insert_le train _ _ _ _ []).
Qed.

(** With none of the five artifacts there beforehand, the run adds five
    entries. *)
Lemma scratch_world_count_cold train images rows w :
  Forall (fun kind => fs w !! artifact_path train kind = None) artifact_kinds ->
  obj_count train (scratch_world train images rows w) = 5 + obj_count train w.
Proof.
  intros H. unfold artifact_kinds in H.
  repeat match goal with
         | H : Forall _ (_ :: _) |- _ => apply Forall_cons in H as [? H]
         end.
  unfold scratch_world, after_kmeans. cbn zeta. cbn [fs].
  replace (fs w !! artifact_path train "k_means") with (@None File) by done.
  cbn [fs trace].
  repeat (rewrite (obj_count_insert_absent train _ _ _ _ []);
          [rewrite counted_artifact by (cbn; tauto)
          |rewrite ?lookup_insert_ne by (by apply artifact_path_ne); done]).
  done.
Qed.

(** After a from-scratch run the five artifacts are all in the store. *)
Lemma scratch_world_artifacts train images rows w kind :
  vocabulary_ready train w ->
  In kind artifact_kinds ->
  is_Some (fs (scratch_world train images rows w) !! artifact_path train kind).
Proof.
  intros Hk Hin. cbn in Hin.
  destruct Hin as [<-|Hin].
  { rewrite scratch_world_lookup_k_means by done. by eexists. }
  unfold scratch_world. cbn zeta. cbn [fs].
  repeat (destruct Hin as [<-|Hin];
          [rewrite ?lookup_insert_ne by (by apply artifact_path_ne);
           rewrite lookup_insert_eq; by eexists|]).
  done.
Qed.

(** The warm path, read off the store. *)
Lemma get_features_cached train images w a b c d :
  obj_count train w = 5 ->
  stored w train "haralicks" = Ok a ->
  stored w train "lbps" = Ok b ->
  stored w train "labels" = Ok c ->
  stored w train "surfdescriptors" = Ok d ->
  get_features train images w = (Ok (a, b, c, d), w).
Proof.
  intros H5 Ha Hb Hc Hd. unfold get_features.
  erewrite bind_ok; [|apply object_dir_file_num_eq]. rewrite H5. cbn.
  erewrite bind_ok; [|by rewrite get_obj_stored, Ha].
  erewrite bind_ok; [|by rewrite get_obj_stored, Hb].
  erewrite bind_ok; [|by rewrite get_obj_stored, Hc].
  erewrite bind_ok; [|by rewrite get_obj_stored, Hd]. done.
Qed.

End CacheCompleteness.

Module ScenarioCache.
Import Toy.

(** A test cache directory holding one [.obj] file that is no artifact. *)
Definition w_stray : World :=
  mkWorld {[ "objects/test/backup.obj" := FOther ]} [].

(** A training cache directory with five [.obj] files, none an artifact. *)
Definition w_five_strays : World :=
  mkWorld
    (<["objects/train/a.obj" := FOther]>
       (<["objects/train/b.obj" := FOther]>
          (<["objects/train/c.obj" := FOther]>
             (<["objects/train/d.obj" := FOther]>
                (<["objects/train/e.obj" := FOther]> ∅)))))
    [].

End ScenarioCache.

(** An [.obj] entry of the split's directory that is none of its artifacts. *)
Definition stray `{E : External} (train : bool) (w : World) : Prop :=
  exists key v,
    fs w !! key = Some v /\ counted train key = true /\
    forall kind, In kind artifact_kinds -> artifact_path train kind <> key.

(** X4: a from-scratch run on a cache directory without any [.obj] entry
    makes the cache complete (five entries); from then on [get_features]
    returns the matrices of that run for any image list it is given, without
    decoding, fitting or writing. *)
Theorem get_features_cold_then_warm `{E : External} train images w :
  obj_count train w = 0 ->
  images <> [] ->
  Forall (fun f => is_Some (extract train f)) images ->
  exists res w',
    get_features train images w = (Ok res, w') /\
    obj_count train w' = 5 /\
    forall images', get_features train images' w' = (Ok res, w').
Proof.
  intros H0 Hne Hall.
  assert (Forall (fun kind => fs w !! artifact_path train kind = None)
            artifact_kinds) as Habs.
  { apply Forall_forall. intros kind Hin%list_elem_of_In.
    destruct (fs w !! artifact_path train kind) eqn:Hf; [|done].
    pose proof (obj_count_present train (fs w) _ _ (trace w) Hf
                  (counted_artifact train kind Hin)) as Hp.
    assert (obj_count train (mkWorld (fs w) (trace w)) = obj_count train w)
      as Heq by reflexivity.
    lia. }
  assert (vocabulary_ready train w) as Hk.
  { unfold vocabulary_ready. inversion Habs as [|?? Hkm _]. by rewrite Hkm. }
  destruct (proj2 (mapM_is_Some (extract train) images)) as [rows Hrows].
  { eapply Forall_impl; [exact Hall|]. done. }
  do 2 eexists. split; [apply get_features_scratch; [lia|done..]|].
  assert (obj_count train (scratch_world train images rows w) = 5) as H5.
  { rewrite scratch_world_count_cold by done. lia. }
  split; [done|]. intros images'.
  apply get_features_cached; [done|..]; unfold stored, scratch_world;
    cbn zeta; cbn [fs];
    rewrite ?lookup_insert_ne by (by apply artifact_path_ne);
    by rewrite lookup_insert_eq.
Qed.

Lemma get_features_cold_then_warm_witness :
  exists res w',
    get_features false Scenario.test_images Scenario.w_train_vocabulary =
    (Ok res, w') /\
    obj_count false w' = 5 /\
    forall images', get_features false images' w' = (Ok res, w').
Proof.
  apply (get_features_cold_then_warm (E := Toy.env) false Scenario.test_images
           Scenario.w_train_vocabulary).
  - reflexivity.
  - discriminate.
  - repeat constructor; eexists; reflexivity.
Defined.

Section StrayEntry.
Context `{E : External}.

Lemma scratch_world_keeps train images rows w key v :
  fs w !! key = Some v ->
  (forall kind, In kind artifact_kinds -> artifact_path train kind <> key) ->
  fs (scratch_world train images rows w) !! key = Some v.
Proof.
  intros Hf Hne. unfold scratch_world, after_kmeans. cbn zeta. cbn [fs].
  rewrite !lookup_insert_ne by (apply Hne; cbn; tauto).
  destruct (fs w !! artifact_path train "k_means"); cbn [fs]; [done|].
  by rewrite lookup_insert_ne by (apply Hne; cbn; tauto).
Qed.

(** Five artifacts and one more counted entry make at least six. *)
Lemma stray_count train images rows w :
  stray train w -> vocabulary_ready train w ->
  5 < obj_count train (scratch_world train images rows w).
Proof.
  intros (key & v & Hf & Hc & Hne) Hk.
  pose proof (scratch_world_keeps train images rows w key v Hf Hne) as Hkey.
  pose proof (scratch_world_artifacts train images rows w) as Hart.
  assert (forall t, obj_count train (scratch_world train images rows w) =
                    obj_count train
                      (mkWorld (fs (scratch_world train images rows w)) t))
    as Heq by reflexivity.
  rewrite (Heq []). clear Heq.
  generalize dependent (fs (scratch_world train images rows w)).
  intros m Hkey Hart.
  rewrite (obj_count_delete train m key v [] Hkey Hc).
  assert (forall kinds (m' : gmap string File),
            NoDup kinds ->
            (forall kind, In kind kinds -> In kind artifact_kinds) ->
            (forall kind, In kind kinds ->
               is_Some (m' !! artifact_path train kind)) ->
            length kinds <= obj_count train (mkWorld m' [])) as Hgen.
  { induction kinds as [|kind kinds IH]; intros m' Hnd Hsub Hpres; [cbn; lia|].
    destruct (Hpres kind (or_introl eq_refl)) as [v' Hv'].
    rewrite (obj_count_delete train m' _ v' [] Hv')
      by (apply counted_artifact, Hsub; by left).
    cbn [length]. apply le_n_S, IH.
    - by inversion Hnd.
    - intros k' Hk'. apply Hsub. by right.
    - intros k' Hk'. rewrite lookup_delete_ne; [apply Hpres; by right|].
      intros Heq%artifact_path_inj. destruct Heq as [_ ->].
      inversion Hnd as [|?? Hnot _]. apply Hnot. by apply list_elem_of_In. }
  specialize (Hgen artifact_kinds (delete key m)).
  cbn [length artifact_kinds] in Hgen. apply le_n_S, Hgen.
  - apply (bool_decide_unpack _). by vm_compute.
  - done.
  - intros kind Hin. rewrite lookup_delete_ne; [by apply Hart|].
    intros Heq. by apply (Hne kind Hin).
Qed.

End StrayEntry.

(** X5: with an [.obj] entry in the split's directory that is none of the
    five artifacts, a from-scratch run leaves more than five entries, so the
    cache is not taken as complete: the next call returns the same matrices
    but decodes every image again (the vocabulary alone is reused). *)
Theorem get_features_stray_entry_recomputes `{E : External} train images w :
  stray train w ->
  obj_count train w <> 5 ->
  images <> [] ->
  Forall (fun f => is_Some (extract train f)) images ->
  vocabulary_ready train w ->
  exists res w' w'',
    get_features train images w = (Ok res, w') /\
    5 < obj_count train w' /\
    get_features train images w' = (Ok res, w'') /\
    trace w'' = trace w' ++ decodes images.
Proof.
  intros Hs H5 Hne Hall Hk.
  destruct (proj2 (mapM_is_Some (extract train) images)) as [rows Hrows].
  { eapply Forall_impl; [exact Hall|]. done. }
  pose proof (stray_count train images rows w Hs Hk) as H6.
  do 3 eexists. split; [by apply get_features_scratch|].
  split; [done|]. split.
  - rewrite (get_features_scratch train images _ rows);
      [|lia|done|done|by apply scratch_world_ready].
    unfold histograms. by rewrite scratch_world_chosen.
  - unfold scratch_world at 1, after_kmeans. cbn zeta. cbn [fs].
    rewrite scratch_world_lookup_k_means by done. done.
Qed.

Lemma get_features_stray_entry_recomputes_witness :
  exists res w' w'',
    get_features false Scenario.test_images ScenarioCache.w_stray =
    (Ok res, w') /\
    5 < obj_count false w' /\
    get_features false Scenario.test_images w' = (Ok res, w'') /\
    trace w'' = trace w' ++ decodes Scenario.test_images.
Proof.
  apply (get_features_stray_entry_recomputes (E := Toy.env) false
           Scenario.test_images ScenarioCache.w_stray).
  - exists "objects/test/backup.obj", FOther.
    split; [reflexivity|]. split; [reflexivity|].
    intros kind Hin. cbn in Hin.
    repeat (destruct Hin as [<-|Hin]; [discriminate|]). done.
  - assert (obj_count false ScenarioCache.w_stray = 1) as -> by reflexivity.
    lia.
  - discriminate.
  - repeat constructor; eexists; reflexivity.
  - exact I.
Defined.

(** X6: the cache check counts files and does not look at their names: with
    exactly five [.obj] entries in the directory, an artifact whose file is
    missing is returned as None, without an error and without recomputing
    anything. *)
Theorem get_features_count_only `{E : External} train images w :
  obj_count train w = 5 ->
  fs w !! artifact_path train "haralicks" = None ->
  fs w !! artifact_path train "lbps" = None ->
  fs w !! artifact_path train "labels" = None ->
  fs w !! artifact_path train "surfdescriptors" = None ->
  get_features train images w = (Ok (None, None, None, None), w).
Proof.
  intros H5 Ha Hb Hc Hd.
  apply get_features_cached; [done|..]; unfold stored;
    by rewrite ?Ha, ?Hb, ?Hc, ?Hd.
Qed.

Lemma get_features_count_only_witness :
  get_features true Scenario.train_images ScenarioCache.w_five_strays =
  (Ok (None, None, None, None), ScenarioCache.w_five_strays).
Proof.
  apply (get_features_count_only (E := Toy.env) true Scenario.train_images
           ScenarioCache.w_five_strays); reflexivity.
Defined.

(** ** Failures while extracting *)

Section ExtractionFailure.
Context `{E : External}.

(** One iteration either appends the image's row or raises; it never writes
    to the store. *)
Lemma features_step_cases train fname acc w :
  fs (snd (features_step train fname acc w)) = fs w /\
  (extract train fname = None ->
   exists e, fst (features_step train fname acc w) = Raise e /\
             (e = IOError \/ e = IndexError)).
Proof.
  unfold extract, features_step, compute_texture, compute_lbp, imread, emit,
    of_option, mbind, M_bind, bind, ret, raise.
  cbn.
  destruct (mh_imread fname false) as [im|]; cbn;
    [|split; [done|]; intros _; by eauto].
  destruct train; cbn.
  - destruct (Py.split "/" fname !! 2) as [lab|]; cbn;
      [|split; [done|]; intros _; by eauto].
    destruct (mh_imread fname true) as [img|]; cbn;
      [done|split; [done|]; intros _; by eauto].
  - destruct (mh_imread fname true) as [img|]; cbn;
      [done|split; [done|]; intros _; by eauto].
Qed.


Lemma features_loop_fails train images : forall acc w,
  Exists (fun f => extract train f = None) images ->
  exists e, fst (features_loop train images acc w) = Raise e /\
            (e = IOError \/ e = IndexError).
Proof.
  induction images as [|f images IH]; intros acc w Hex;
    [by apply Exists_nil in Hex|].
  cbn [features_loop]. unfold mbind, M_bind, bind.
  destruct (extract train f) as [r|] eqn:Hr.
  - rewrite (features_step_ok train f acc w r Hr).
    apply IH. apply Exists_cons in Hex as [Hex|Hex]; [congruence|done].
  - destruct (proj2 (features_step_cases train f acc w) Hr) as (e & He & Hor).
    destruct (features_step train f acc w) as [[acc'|e'] w1]; cbn in He;
      [done|]. injection He as ->. by eauto.
Qed.



End ExtractionFailure.



(** The two failures on concrete lists: an image that does not decode, and a
    training path without a third segment. *)
Example get_features_undecodable :
  fst (get_features true ["imgs/train/c0/a.jpg"; "imgs/train/c0/b.png"]
         Scenario.w_empty) = Raise IOError.
Proof. reflexivity. Qed.

Example get_features_two_segments :
  fst (get_features true ["imgs/train/c0/a.jpg"; "train/b.jpg"]
         Scenario.w_empty) = Raise IndexError.
Proof. reflexivity. Qed.

(** X8: a from-scratch run on an empty image list raises ValueError (there is
    nothing to concatenate) and leaves store and trace as they were; no
    empty matrices are returned or saved. *)
Theorem get_features_empty_images `{E : External} train w :
  obj_count train w <> 5 ->
  get_features train [] w = (Raise ValueError, w).
Proof.
  intros H5. unfold get_features.
  erewrite bind_ok; [|apply object_dir_file_num_eq].
  destruct (Nat.eqb_spec (obj_count train w) 5) as [|_]; [done|].
  by destruct w.
Qed.

Lemma get_features_empty_images_witness :
  get_features false [] Scenario.w_train_vocabulary =
  (Raise ValueError, Scenario.w_train_vocabulary).
Proof.
  apply (get_features_empty_images (E := Toy.env) false
           Scenario.w_train_vocabulary).
  assert (obj_count false Scenario.w_train_vocabulary = 0) as -> by reflexivity.
  lia.
Defined.

(** ** Shape and mass of the histograms *)

Section HistogramMass.
Context `{E : External}.

Lemma sum_indicator x n : forall a,
  sum_list (map (fun j => if Nat.eq_dec x j then 1 else 0) (seq a n)) =
  if bool_decide (a <= x < a + n) then 1 else 0.
Proof.
  induction n as [|n IH]; intros a; cbn [seq map sum_list].
  - rewrite bool_decide_eq_false_2; [done|lia].
  - rewrite IH. destruct (Nat.eq_dec x a) as [->|Hne].
    + rewrite bool_decide_eq_false_2 by lia.
      rewrite bool_decide_eq_true_2 by lia. done.
    + destruct (decide (S a <= x < S a + n)).
      * rewrite !bool_decide_eq_true_2 by lia. done.
      * rewrite !bool_decide_eq_false_2 by lia. done.
Qed.

Lemma sum_count_occ c n a :
  Forall (fun x => a <= x < a + n) c ->
  sum_list (map (fun j => count_occ Nat.eq_dec c j) (seq a n)) = length c.
Proof.
  induction 1 as [|x c Hx _ IH]; cbn [count_occ length].
  - induction (seq a n) as [|j l IHl]; [done|]. cbn. by rewrite IHl.
  - rewrite <-IH. clear IH.
    transitivity
      (sum_list (map (fun j => if Nat.eq_dec x j then 1 else 0) (seq a n)) +
       sum_list (map (fun j => count_occ Nat.eq_dec c j) (seq a n))).
    + induction (seq a n) as [|j l IHl]; [done|]. cbn [map sum_list].
      rewrite IHl. unfold id. destruct (Nat.eq_dec x j); lia.
    + rewrite sum_indicator, bool_decide_eq_true_2 by done. done.
Qed.

Lemma bound_spec c : Forall (fun x => x < bound c) c.
Proof.
  induction c as [|x c IH]; [constructor|]. unfold bound in *. cbn.
  constructor; [lia|]. eapply Forall_impl; [exact IH|]. cbn. lia.
Qed.

(** Every assignment lands in exactly one bin. *)
Lemma sum_np_bincount c n : sum_list (Np.np_bincount c n) = length c.
Proof.
  unfold Np.np_bincount. fold (bound c). apply sum_count_occ.
  eapply Forall_impl; [apply bound_spec|]. cbn. lia.
Qed.

Lemma sum_encode m n d : sum_list (encode m n d) = length d.
Proof. unfold encode. by rewrite sum_np_bincount, km_predict_length. Qed.

End HistogramMass.

(** ** What a from-scratch run that returns has done *)

Section ScratchInversion.
Context `{E : External}.

Lemma get_kmeans_stored k train d w :
  get_kmeans k train d w =
  match stored w train "k_means" with
  | Ok (Some km) => (Ok km, w)
  | Ok None =>
      (Ok (OKMeans (MiniBatchKMeans_fit k 1000 30 d)),
       mkWorld
         (<[artifact_path train "k_means" :=
              FPickle (OKMeans (MiniBatchKMeans_fit k 1000 30 d))]> (fs w))
         (trace w ++ [EvFit k d]))
  | Raise e => (Raise e, w)
  end.
Proof.
  unfold get_kmeans, mbind, M_bind, bind. rewrite get_obj_stored.
  destruct (stored w train "k_means") as [[km|]|e]; [done| |done].
  unfold emit, ret. by rewrite save_obj_eq.
Qed.

(** An object that is no fitted model has no [predict]. *)
Lemma traverse_not_a_model km k d ds w :
  (forall m, km <> OKMeans m) ->
  fst (traverse (histogram_row km k) (d :: ds) w) = Raise AttributeError.
Proof. intros H. destruct km; [done..|]. by destruct (H m). Qed.

Lemma np_array_float_Some rows hs :
  Np.np_array_float rows = Some hs ->
  hs = map to_float_row rows /\
  exists n, Forall (fun r => length r = n) rows.
Proof.
  destruct rows as [|r rows]; cbn.
  - intros [= <-]. split; [done|]. exists 0. constructor.
  - destruct (forallb _ rows) eqn:Hall; [|done]. intros [= <-].
    split; [done|]. exists (length r). constructor; [done|].
    apply Forall_forall. intros r' Hr'.
    rewrite forallb_forall in Hall. apply Nat.eqb_eq, Hall.
    by apply list_elem_of_In.
Qed.

(** A from-scratch run that returns has extracted every image, has encoded
    all of them with one fitted model, the one in the split's [k_means] entry
    afterwards, and the count rows have one common length. *)
Lemma get_features_scratch_inv train images w res w' :
  obj_count train w <> 5 ->
  get_features train images w = (Ok res, w') ->
  exists rows m,
    Forall2 (fun f r => extract train f = Some r) images rows /\
    images <> [] /\
    fs w' !! artifact_path train "k_means" = Some (FPickle (OKMeans m)) /\
    res =
    (Some (ONdarray (map row_texture rows)),
     Some (ONdarray (map row_pattern rows)),
     Some (OLabels (omap row_label rows)),
     Some (ONdarray
             (map to_float_row
                (map (fun r => encode m (np_intp (vocabulary_k train))
                                 (row_descriptors r)) rows)))) /\
    exists n,
      Forall (fun r => length (encode m (np_intp (vocabulary_k train))
                                 (row_descriptors r)) = n) rows.
Proof.
  intros H5 H. unfold get_features in H.
  erewrite bind_ok in H; [|apply object_dir_file_num_eq].
  destruct (Nat.eqb_spec (obj_count train w) 5) as [|_]; [done|].
  destruct (mapM (extract train) images) as [rows|] eqn:Hrows.
  2:{ apply mapM_None_1 in Hrows.
      destruct (features_loop_fails train images (mkAcc [] [] [] []) w Hrows)
        as (e & He & _).
      destruct (features_loop train images (mkAcc [] [] [] []) w)
        as [r w1] eqn:Hl.
      cbn in He. subst r. erewrite bind_raise in H; [|exact Hl]. done. }
  pose proof (mapM_Some_1 _ _ _ Hrows) as HF.
  erewrite bind_ok in H; [|by apply features_loop_ok].
  cbn [acc_alldescriptors acc_haralicks acc_lbps acc_labels app] in H.
  destruct images as [|f0 images].
  { apply Forall2_nil_inv_l in HF as ->. done. }
  destruct rows as [|r0 rows]; [by apply Forall2_nil_inv_r in HF|].
  exists (r0 :: rows).
  cbn [map Np.np_concatenate of_option] in H. rewrite bind_ret_l in H.
  match type of H with
  | (get_kmeans ?k ?t ?d ≫= _) ?w1 = _ =>
      destruct (get_kmeans k t d w1) as [[km|e] w2] eqn:Hkm;
        [erewrite bind_ok in H; [|exact Hkm]
        |erewrite bind_raise in H; [|exact Hkm]; done]
  end.
  assert (fs w2 !! artifact_path train "k_means" = Some (FPickle km)) as Hw2.
  { rewrite get_kmeans_stored in Hkm. unfold stored in Hkm. cbn [fs] in Hkm.
    destruct (fs w !! artifact_path train "k_means") as [[o| |]|] eqn:Hf;
      try done; injection Hkm as <- <-; cbn [fs]; [done|].
    by rewrite lookup_insert_eq. }
  clear Hkm.
  assert (exists m, km = OKMeans m) as [m ->].
  { destruct km as [| |m]; [| |by eexists]; exfalso.
    - match type of H with
      | (traverse ?g ?ds ≫= _) ?w1 = _ =>
          pose proof (traverse_not_a_model (ONdarray rows0)
                        (vocabulary_k train) (row_descriptors r0)
                        (map row_descriptors rows) w1 ltac:(done)) as Ht;
          destruct (traverse g ds w1) as [r1 w3] eqn:Htr
      end.
      cbn in Ht. subst r1. erewrite bind_raise in H; [|exact Htr]. done.
    - match type of H with
      | (traverse ?g ?ds ≫= _) ?w1 = _ =>
          pose proof (traverse_not_a_model (OLabels labels)
                        (vocabulary_k train) (row_descriptors r0)
                        (map row_descriptors rows) w1 ltac:(done)) as Ht;
          destruct (traverse g ds w1) as [r1 w3] eqn:Htr
      end.
      cbn in Ht. subst r1. erewrite bind_raise in H; [|exact Htr]. done. }
  exists m.
  erewrite bind_ok in H;
    [|apply (traverse_histogram_row m (vocabulary_k train)
               (row_descriptors r0 :: map row_descriptors rows))].
  set (counts := map (encode m (np_intp (vocabulary_k train)))
                   (row_descriptors r0 :: map row_descriptors rows)) in H.
  assert (counts =
          map (fun r => encode m (np_intp (vocabulary_k train))
                          (row_descriptors r)) (r0 :: rows)) as Hcounts.
  { subst counts. cbn [map]. by rewrite map_map. }
  clearbody counts.
  destruct (Np.np_array_float counts) as [hs|] eqn:Hnp; [|done].
  apply np_array_float_Some in Hnp as [-> [n Hn]].
  cbn [of_option] in H. rewrite bind_ret_l in H.
  unfold mbind, M_bind, bind in H. rewrite !save_obj_eq in H. cbn in H.
  injection H as <- <-. cbn [fs]. subst counts.
  split; [done|]. split; [done|]. split.
  { by rewrite !lookup_insert_ne by (by apply artifact_path_ne). }
  split; [done|].
  exists n. by rewrite Forall_fmap in Hn.
Qed.

End ScratchInversion.

(** X9: for every from-scratch run that returns, the histogram matrix is the
    [dtype=float] image of integer count rows, one per image in image order,
    all of one common length [n]; [n] is at least [np_intp k] for the split's
    own [k], and exactly [np_intp k] when the model in use (the one in the
    split's [k_means] entry afterwards) has at most that many centers; and
    the counts of row [i] add up to the number of descriptors sampled from
    [images[i]]. *)
Theorem histogram_matrix_shape_and_mass `{E : External}
    train images w haralicks lbps labels surf_descriptors w' :
  obj_count train w <> 5 ->
  get_features train images w =
  (Ok (haralicks, lbps, labels, surf_descriptors), w') ->
  exists counts m n,
    surf_descriptors = Some (ONdarray (map to_float_row counts)) /\
    length counts = length images /\
    fs w' !! artifact_path train "k_means" = Some (FPickle (OKMeans m)) /\
    Forall (fun h => length h = n) counts /\
    np_intp (vocabulary_k train) <= n /\
    (km_centers m <= np_intp (vocabulary_k train) ->
     n = np_intp (vocabulary_k train)) /\
    forall (i : nat) f r, images !! i = Some f -> extract train f = Some r ->
      exists h, counts !! i = Some h /\
                sum_list h = length (row_descriptors r).
Proof.
  intros H5 H.
  destruct (get_features_scratch_inv _ _ _ _ _ H5 H)
    as (rows & m & HF & Hne & Hkm & Hres & n & Hn).
  injection Hres as -> -> -> ->.
  exists (map (fun r => encode m (np_intp (vocabulary_k train))
                          (row_descriptors r)) rows), m, n.
  split; [done|]. rewrite length_map.
  split; [symmetry; by eapply Forall2_length|]. split; [done|].
  split; [by rewrite Forall_fmap|].
  destruct rows as [|r0 rows].
  { apply Forall2_nil_inv_r in HF. done. }
  apply Forall_cons in Hn as [Hn0 _]. split; [|split].
  - rewrite <-Hn0. unfold encode. rewrite length_np_bincount. lia.
  - intros Hc. rewrite <-Hn0. by apply length_encode.
  - intros i f r Hi Hr.
    destruct (Forall2_lookup_l _ _ _ _ _ HF Hi) as (r' & Hr' & Hfr).
    assert (r' = r) as -> by congruence.
    eexists. rewrite list_lookup_fmap, Hr'. split; [reflexivity|].
    apply sum_encode.
Qed.

Lemma histogram_matrix_shape_and_mass_witness :
  exists counts (m : @KMeans Toy.env) n,
    Some (@ONdarray Toy.env (histograms (E := Toy.env) false Scenario.w_empty
                      Scenario.test_rows)) =
    Some (@ONdarray Toy.env (map to_float_row counts)) /\
    length counts = length Scenario.test_images /\
    fs (scratch_world (E := Toy.env) false Scenario.test_images Scenario.test_rows
          Scenario.w_empty) !! artifact_path false "k_means" =
    Some (FPickle (OKMeans m)) /\
    Forall (fun h => length h = n) counts /\
    Toy.intp (vocabulary_k false) <= n /\
    (Toy.n_centers m <= Toy.intp (vocabulary_k false) ->
     n = Toy.intp (vocabulary_k false)) /\
    forall (i : nat) f (r : Row),
      Scenario.test_images !! i = Some f ->
      extract (E := Toy.env) false f = Some r ->
      exists h, counts !! i = Some h /\
                sum_list h = length (row_descriptors r).
Proof.
  apply (histogram_matrix_shape_and_mass (E := Toy.env) false
           Scenario.test_images Scenario.w_empty
           (Some (ONdarray (map row_texture Scenario.test_rows)))
           (Some (ONdarray (map row_pattern Scenario.test_rows)))
           (Some (OLabels (omap row_label Scenario.test_rows)))).
  - assert (obj_count false Scenario.w_empty = 0) as -> by reflexivity. lia.
  - apply (get_features_scratch false Scenario.test_images Scenario.w_empty
             Scenario.test_rows).
    + assert (obj_count false Scenario.w_empty = 0) as -> by reflexivity. lia.
    + discriminate.
    + reflexivity.
    + exact I.
Defined.

(** ** Submission writer: outcomes *)

Section SubmissionOutcomes.
Context `{E : External}.

(** The CSV [create_submission] writes when it succeeds. *)
Definition submission_csv (preds : Preds) (images : list string) : File :=
  FCsv submission_columns
    (map (fun i =>
            CStr (nth i (map (Py.last_segment "/") images) "")
            :: map (fun c => CNum (nth i c 0%float)) (class_columns preds))
       (seq 0 (length images))).

Lemma create_submission_mismatch featureType preds images w :
  length (class_columns preds) = 10 ->
  Exists (fun c => length c <> length images) (class_columns preds) ->
  create_submission featureType preds images w = (Raise ValueError, w).
Proof.
  intros H10 Hex. unfold create_submission. fold (class_columns preds).
  destruct (class_columns preds) as [|c0 cols]; [done|].
  do 9 (destruct cols as [|? cols]; [done|]).
  destruct cols; [|done]. clear H10.
  cbn [unpack10 of_res]. unfold mbind, M_bind, bind, of_res.
  cbn [pd_DataFrame snd col_length]. rewrite length_map.
  destruct (forallb _ _) eqn:Hall; [|done]. exfalso.
  cbn [forallb snd col_length] in Hall.
  repeat (apply andb_prop in Hall as [?%Nat.eqb_eq Hall]).
  repeat (apply Exists_cons in Hex as [Hex|Hex]; [congruence|]).
  by apply Exists_nil in Hex.
Qed.

(** The two outcomes: the CSV is written, or ValueError with the state as it
    was. *)
Lemma create_submission_outcome featureType preds images w :
  create_submission featureType preds images w =
  (Ok tt,
   mkWorld (<[submission_path featureType := submission_csv preds images]> (fs w))
     (trace w))
  \/ create_submission featureType preds images w = (Raise ValueError, w).
Proof.
  destruct (decide (length (class_columns preds) = 10)) as [H10|Hn];
    [|right; by apply create_submission_raise].
  destruct (decide (Forall (fun c => length c = length images)
                      (class_columns preds))) as [Hall|Hnot].
  - left. by apply create_submission_ok.
  - right. apply create_submission_mismatch; [done|].
    by apply not_Forall_Exists in Hnot; [|apply _].
Qed.

Lemma submission_path_inj ft ft' :
  submission_path ft = submission_path ft' -> ft = ft'.
Proof.
  unfold submission_path. intros H.
  apply (inj (String.append "submissions/")) in H. by apply app_inj_r in H.
Qed.

Lemma submission_not_artifact ft train kind :
  submission_path ft <> artifact_path train kind.
Proof.
  intros H. apply (f_equal (String.get 0)) in H.
  destruct train; cbv in H; discriminate H.
Qed.

(** Reading a matrix column by column and then position by position gives
    its rows back. *)
Lemma nth_columns (rows : list (list float)) n i p :
  rows !! i = Some p -> length p = n ->
  map (fun c => nth i c 0%float)
    (map (fun j => map (fun r => nth j r 0%float) rows) (seq 0 n)) = p.
Proof.
  intros Hi Hn. rewrite map_map. apply list_eq. intros j.
  rewrite list_lookup_fmap.
  destruct (decide (j < n)) as [Hj|Hj].
  - rewrite lookup_seq_lt by done. cbn.
    rewrite (lookup_nth p j 0%float) by lia. f_equal.
    erewrite nth_lookup_Some; [reflexivity|].
    by rewrite list_lookup_fmap, Hi.
  - rewrite lookup_seq_ge by lia. cbn. symmetry.
    apply lookup_ge_None. lia.
Qed.

End SubmissionOutcomes.

Module ScenarioCsv2.

(** Predictions for one image only. *)
Definition proba1 : Np.Ndarray2 :=
  Np.mkNdarray2 (1, 10) [[1; 0; 0; 0; 0; 0; 0; 0; 0; 0]]%float.

(** A [predict_proba] result for no image at all. *)
Definition proba0 : Np.Ndarray2 := Np.mkNdarray2 (0, 10) [].

End ScenarioCsv2.

(** X10: given the [predict_proba] matrix (one row per image, ten columns),
    the transposition and the column-wise data frame cancel out: row [i] of
    the CSV is the file name of [images[i]] followed by row [i] of the
    matrix. *)
Theorem submission_rows_are_prediction_rows `{E : External}
    featureType a images w :
  length (Np.rows a) = length images ->
  snd (Np.shape a) = 10 ->
  Forall (fun p => length p = 10) (Np.rows a) ->
  exists rows,
    create_submission featureType (PredsArray a) images w =
    (Ok tt,
     mkWorld
       (<[submission_path featureType :=
            FCsv ["img"; "c0"; "c1"; "c2"; "c3"; "c4"; "c5"; "c6"; "c7"; "c8";
                  "c9"] rows]> (fs w))
       (trace w)) /\
    length rows = length images /\
    forall (i : nat) f p, images !! i = Some f -> Np.rows a !! i = Some p ->
      rows !! i = Some (CStr (Py.last_segment "/" f) :: map CNum p).
Proof.
  intros Hrows Hcols Hwf. eexists. split.
  { apply create_submission_ok.
    - by rewrite class_columns_array.
    - cbn. apply Forall_forall. intros c Hc.
      apply list_elem_of_In, in_map_iff in Hc. destruct Hc as (j & <- & _).
      by rewrite length_map. }
  rewrite length_map, length_seq. split; [done|].
  intros i f p Hi Hp. pose proof (lookup_lt_Some _ _ _ Hi) as Hlt.
  rewrite list_lookup_fmap, lookup_seq_lt by done.
  cbn [fmap option_fmap option_map]. change (0 + i) with i.
  f_equal. f_equal.
  - f_equal. apply nth_lookup_Some. by rewrite list_lookup_fmap, Hi.
  - rewrite <-map_map. f_equal. cbn [class_columns Np.transpose Np.rows].
    rewrite Hcols. apply nth_columns; [done|].
    rewrite Forall_forall in Hwf. apply Hwf. by eapply list_elem_of_lookup_2.
Qed.

Lemma submission_rows_are_prediction_rows_witness :
  exists rows,
    create_submission "base" (PredsArray ScenarioCsv.proba)
      Scenario.test_images Scenario.w_warm =
    (Ok tt,
     mkWorld
       (<[submission_path "base" :=
            FCsv ["img"; "c0"; "c1"; "c2"; "c3"; "c4"; "c5"; "c6"; "c7"; "c8";
                  "c9"] rows]> (fs Scenario.w_warm))
       (trace Scenario.w_warm)) /\
    length rows = length Scenario.test_images /\
    forall (i : nat) f p, Scenario.test_images !! i = Some f ->
      Np.rows ScenarioCsv.proba !! i = Some p ->
      rows !! i = Some (CStr (Py.last_segment "/" f) :: map CNum p).
Proof.
  apply (submission_rows_are_prediction_rows (E := Toy.env) "base"
           ScenarioCsv.proba Scenario.test_images Scenario.w_warm).
  - reflexivity.
  - reflexivity.
  - by repeat constructor.
Defined.

(** X11: when some class column is not as long as the image list (more or
    fewer predictions than images), [create_submission] raises ValueError and
    writes nothing. *)
Theorem create_submission_length_mismatch `{E : External}
    featureType preds images w :
  Exists (fun c => length c <> length images) (class_columns preds) ->
  create_submission featureType preds images w = (Raise ValueError, w).
Proof.
  intros Hex.
  destruct (decide (length (class_columns preds) = 10)) as [H10|Hn].
  - by apply create_submission_mismatch.
  - by apply create_submission_raise.
Qed.

Lemma create_submission_length_mismatch_witness :
  create_submission "base" (PredsArray ScenarioCsv2.proba1)
    Scenario.test_images Scenario.w_empty = (Raise ValueError, Scenario.w_empty).
Proof.
  apply (create_submission_length_mismatch (E := Toy.env) "base"
           (PredsArray ScenarioCsv2.proba1) Scenario.test_images
           Scenario.w_empty).
  apply Exists_cons_hd. cbn. lia.
Defined.

(** X12: whatever its outcome, [create_submission] leaves the trace alone and
    changes no file but the CSV of its own feature type: the CSVs of the
    other feature types and every cached artifact read as before. *)
Theorem create_submission_touches_only_its_csv `{E : External}
    featureType preds images w :
  trace (snd (create_submission featureType preds images w)) = trace w /\
  (forall path, path <> submission_path featureType ->
     fs (snd (create_submission featureType preds images w)) !! path =
     fs w !! path) /\
  (forall featureType', featureType' <> featureType ->
     fs (snd (create_submission featureType preds images w))
       !! submission_path featureType' =
     fs w !! submission_path featureType') /\
  (forall train kind,
     fs (snd (create_submission featureType preds images w))
       !! artifact_path train kind =
     fs w !! artifact_path train kind).
Proof.
  assert (forall path, path <> submission_path featureType ->
            fs (snd (create_submission featureType preds images w)) !! path =
            fs w !! path) as Hother.
  { intros path Hne.
    destruct (create_submission_outcome featureType preds images w) as [->| ->];
      cbn [snd fs]; [|done].
    by rewrite lookup_insert_ne. }
  split; [|split; [done|split]].
  - by destruct (create_submission_outcome featureType preds images w)
      as [->| ->].
  - intros ft' Hne. apply Hother. intros H. by apply submission_path_inj in H.
  - intros train kind. apply Hother. intros H. symmetry in H.
    by apply submission_not_artifact in H.
Qed.

Lemma create_submission_touches_only_its_csv_witness :
  fs (snd (create_submission "base" (PredsArray ScenarioCsv.proba)
             Scenario.test_images Scenario.w_warm))
    !! submission_path "surf" =
  fs Scenario.w_warm !! submission_path "surf".
Proof.
  apply (proj1 (proj2 (proj2
           (create_submission_touches_only_its_csv (E := Toy.env) "base"
              (PredsArray ScenarioCsv.proba) Scenario.test_images
              Scenario.w_warm)))).
  discriminate.
Defined.

(** X13: a successful call replaces the CSV of its feature type entirely: the
    state it leaves is the same whether or not an earlier call, with any
    predictions and images, wrote (or failed to write) that file before. *)
Theorem create_submission_overwrites `{E : External}
    featureType preds images preds0 images0 w w' :
  create_submission featureType preds images w = (Ok tt, w') ->
  create_submission featureType preds images
    (snd (create_submission featureType preds0 images0 w)) = (Ok tt, w').
Proof.
  intros H.
  destruct (create_submission_inv _ _ _ _ _ H) as [H10 Hlen].
  rewrite (create_submission_ok _ _ _ _ H10 Hlen) in H. injection H as <-.
  rewrite (create_submission_ok _ _ _ _ H10 Hlen).
  destruct (create_submission_outcome featureType preds0 images0 w) as [->| ->];
    cbn [snd fs trace]; [|done].
  by rewrite insert_insert_eq.
Qed.

Lemma create_submission_overwrites_witness :
  create_submission "base" (PredsArray ScenarioCsv.proba) Scenario.test_images
    (snd (create_submission "base" (PredsArray ScenarioCsv2.proba1)
            ["imgs/test/t9.jpg"] Scenario.w_empty)) =
  (Ok tt,
   snd (create_submission "base" (PredsArray ScenarioCsv.proba)
          Scenario.test_images Scenario.w_empty)).
Proof.
  apply (create_submission_overwrites (E := Toy.env) "base"
           (PredsArray ScenarioCsv.proba) Scenario.test_images).
  reflexivity.
Defined.

(** X14: with no image and a prediction matrix without rows, the CSV is
    written with its header and no data row. *)
Theorem create_submission_no_images `{E : External} featureType a w :
  Np.rows a = [] ->
  snd (Np.shape a) = 10 ->
  create_submission featureType (PredsArray a) [] w =
  (Ok tt,
   mkWorld
     (<[submission_path featureType :=
          FCsv ["img"; "c0"; "c1"; "c2"; "c3"; "c4"; "c5"; "c6"; "c7"; "c8";
                "c9"] []]> (fs w))
     (trace w)).
Proof.
  intros Hrows Hcols. rewrite create_submission_ok.
  - reflexivity.
  - by rewrite class_columns_array.
  - cbn. rewrite Hrows. apply Forall_forall. intros c Hc.
    apply list_elem_of_In, in_map_iff in Hc. by destruct Hc as (j & <- & _).
Qed.

Lemma create_submission_no_images_witness :
  create_submission "base" (PredsArray ScenarioCsv2.proba0) []
    Scenario.w_empty =
  (Ok tt,
   mkWorld
     (<[submission_path "base" :=
          FCsv ["img"; "c0"; "c1"; "c2"; "c3"; "c4"; "c5"; "c6"; "c7"; "c8";
                "c9"] []]> (fs Scenario.w_empty))
     (trace Scenario.w_empty)).
Proof.
  apply (create_submission_no_images (E := Toy.env) "base"
           ScenarioCsv2.proba0 Scenario.w_empty); reflexivity.
Defined.

(** ** Listed images, file names and labels *)

Section ListedImages.
Context `{E : External}.

Lemma globbed_shape train f :
  In f (globbed train) ->
  exists dir name,
    f = dir +:+ "/" +:+ name /\ Py.no_slash name = true /\
    (if train then exists c, In c classes /\ dir = "imgs/train/" +:+ c
     else dir = "imgs/test").
Proof.
  destruct train.
  - intros (c & name & Hc & Hn & -> & _)%globbed_train_shape.
    exists ("imgs/train/" +:+ c), name. by eauto.
  - unfold globbed. intros (name & -> & Hn)%glob_jpg.
    by exists "imgs/test", name.
Qed.

Lemma extract_test_label f r : extract false f = Some r -> row_label r = None.
Proof.
  unfold extract. intros H.
  destruct (mh_imread f false); [|done]. cbn in H.
  destruct (mh_imread f true); [|done]. cbn in H. by injection H as <-.
Qed.

Lemma test_rows_unlabelled images rows :
  Forall2 (fun f r => extract false f = Some r) images rows ->
  omap row_label rows = [].
Proof.
  induction 1 as [|f r images rows Hr _ IH]; [done|].
  cbn. by rewrite (extract_test_label f r Hr).
Qed.

Lemma extract_listed_train f :
  In f (globbed true) ->
  is_Some (mh_imread f false) -> is_Some (mh_imread f true) ->
  exists r c, extract true f = Some r /\ row_label r = Some c /\ In c classes.
Proof.
  intros (c & name & Hc & _ & _ & Hs)%globbed_train_shape [im Him] [img Himg].
  unfold extract. rewrite Him, Himg, Hs. cbn. by eauto.
Qed.

End ListedImages.

(** X15: every path [get_images] returns lies directly in [imgs/test] (test
    split) or in [imgs/train/<class>] for one of the ten classes (training
    split), and its last path component, the [img] value of a submission
    row, is the bare file name. *)
Theorem get_images_file_names `{E : External} train w :
  exists images,
    get_images train w = (Ok images, w) /\
    forall f, In f images ->
      exists dir name,
        f = dir +:+ "/" +:+ name /\
        Py.no_slash name = true /\
        Py.last_segment "/" f = name /\
        (if train then exists c, In c classes /\ dir = "imgs/train/" +:+ c
         else dir = "imgs/test").
Proof.
  exists (Py.sort (globbed train)). split; [apply get_images_eq|].
  intros f Hf.
  assert (In f (globbed train)) as Hg.
  { apply list_elem_of_In. rewrite <-(sort_permutation (globbed train)).
    by apply list_elem_of_In. }
  apply globbed_shape in Hg as (dir & name & -> & Hn & Hdir).
  exists dir, name. split; [done|]. split; [done|].
  split; [by apply last_segment_app|done].
Qed.

(** X16: a from-scratch run of the test split returns, and saves, an empty
    label vector: labels are derived from paths for the training split
    only. *)
Theorem get_features_test_unlabelled `{E : External} images w :
  obj_count false w <> 5 ->
  images <> [] ->
  Forall (fun f => is_Some (extract false f)) images ->
  vocabulary_ready false w ->
  exists haralicks lbps surf_descriptors w',
    get_features false images w =
    (Ok (haralicks, lbps, Some (OLabels []), surf_descriptors), w') /\
    fs w' !! artifact_path false "labels" = Some (FPickle (OLabels [])).
Proof.
  intros H5 Hne Hall Hk.
  destruct (proj2 (mapM_is_Some (extract false) images)) as [rows Hrows].
  { eapply Forall_impl; [exact Hall|]. done. }
  pose proof (test_rows_unlabelled _ _ (mapM_Some_1 _ _ _ Hrows)) as Hlab.
  do 4 eexists. rewrite (get_features_scratch false images w rows) by done.
  rewrite Hlab. split; [reflexivity|].
  unfold scratch_world. cbn zeta. cbn [fs]. rewrite lookup_insert_eq.
  by rewrite Hlab.
Qed.

Lemma get_features_test_unlabelled_witness :
  exists haralicks lbps surf_descriptors w',
    get_features false Scenario.test_images Scenario.w_empty =
    (Ok (haralicks, lbps, Some (OLabels []), surf_descriptors), w') /\
    fs w' !! artifact_path false "labels" = Some (FPickle (OLabels [])).
Proof.
  apply (get_features_test_unlabelled (E := Toy.env) Scenario.test_images
           Scenario.w_empty).
  - assert (obj_count false Scenario.w_empty = 0) as -> by reflexivity. lia.
  - discriminate.
  - repeat constructor; eexists; reflexivity.
  - exact I.
Defined.

(** X17: [get_images] and [get_features] composed: for the training images
    as [get_images] lists them, every from-scratch run that returns gives one
    label per image, each one of the ten class names c0 ... c9. *)
Theorem listed_training_labels_are_classes `{E : External}
    images w0 w haralicks lbps labels surf_descriptors w' :
  get_images true w0 = (Ok images, w0) ->
  obj_count true w <> 5 ->
  get_features true images w =
  (Ok (haralicks, lbps, labels, surf_descriptors), w') ->
  exists names,
    labels = Some (OLabels names) /\
    length names = length images /\
    Forall (fun name => In name classes) names.
Proof.
  intros Hget H5 H.
  rewrite get_images_eq in Hget.
  assert (forall f, f ∈ images -> In f (globbed true)) as Hmem.
  { intros f Hf. apply list_elem_of_In.
    rewrite <-(sort_permutation (globbed true)). congruence. }
  clear Hget.
  destruct (get_features_scratch_inv _ _ _ _ _ H5 H)
    as (rows & m & HF & _ & _ & Hres & _).
  injection Hres as -> -> -> ->. clear H.
  exists (omap row_label rows). split; [done|].
  induction HF as [|f r l rows' Hr _ IH]; [by split|].
  destruct (globbed_train_shape f) as (c & name & Hc & _ & _ & Hs).
  { apply Hmem. by left. }
  destruct (extract_train_label f r Hr) as [Hlab _].
  cbn [omap list_omap]. rewrite <-Hlab, Hs.
  destruct IH as [Hlen Hall].
  { intros g Hg. apply Hmem. by right. }
  split; [cbn; by rewrite Hlen|by constructor].
Qed.

Lemma listed_training_labels_are_classes_witness :
  exists names,
    Some (@OLabels Toy.env (omap row_label Scenario.train_rows)) =
    Some (@OLabels Toy.env names) /\
    length names = length Scenario.train_images /\
    Forall (fun name => In name classes) names.
Proof.
  apply (listed_training_labels_are_classes (E := Toy.env)
           Scenario.train_images Scenario.w_empty Scenario.w_empty
           (Some (ONdarray (map row_texture Scenario.train_rows)))
           (Some (ONdarray (map row_pattern Scenario.train_rows)))
           (Some (OLabels (omap row_label Scenario.train_rows)))
           (Some (ONdarray (histograms true Scenario.w_empty
                              Scenario.train_rows)))
           (scratch_world true Scenario.train_images Scenario.train_rows
              Scenario.w_empty)).
  - reflexivity.
  - assert (obj_count true Scenario.w_empty = 0) as -> by reflexivity. lia.
  - apply (get_features_scratch true Scenario.train_images Scenario.w_empty
             Scenario.train_rows).
    + assert (obj_count true Scenario.w_empty = 0) as -> by reflexivity. lia.
    + discriminate.
    + reflexivity.
    + exact I.
Defined.

Lemma get_images_file_names_witness :
  exists images,
    get_images true Scenario.w_empty = (Ok images, Scenario.w_empty) /\
    forall f, In f images ->
      exists dir name,
        f = dir +:+ "/" +:+ name /\
        Py.no_slash name = true /\
        Py.last_segment "/" f = name /\
        (if true then exists c, In c classes /\ dir = "imgs/train/" +:+ c
         else dir = "imgs/test").
Proof.
  exact (get_images_file_names (E := Toy.env) true Scenario.w_empty).
Defined.

(** ** The two splits do not share a cache *)

Section OtherSplit.
Context `{E : External}.

Lemma counted_other_split train kind :
  counted (negb train) (artifact_path train kind) = false.
Proof. by destruct train. Qed.

Lemma obj_count_insert_other train (m : gmap string File) kind v t t' :
  obj_count (negb train) (mkWorld (<[artifact_path train kind := v]> m) t) =
  obj_count (negb train) (mkWorld m t').
Proof.
  destruct (m !! artifact_path train kind) eqn:H.
  - by erewrite obj_count_insert_present.
  - rewrite (obj_count_insert_absent _ m _ v t t') by done.
    by rewrite counted_other_split.
Qed.

Lemma artifact_path_other_split train kind kind' :
  artifact_path train kind <> artifact_path (negb train) kind'.
Proof. intros [H _]%artifact_path_inj. by destruct train. Qed.

End OtherSplit.

(** X18: a from-scratch run of one split leaves the other split's cache as it
    was: the other directory's file count and each of its artifacts are
    unchanged, so whether the other split is served from cache does not
    depend on this run. *)
Theorem get_features_other_split_untouched `{E : External} train images w :
  obj_count train w <> 5 ->
  images <> [] ->
  Forall (fun f => is_Some (extract train f)) images ->
  vocabulary_ready train w ->
  exists res w',
    get_features train images w = (Ok res, w') /\
    obj_count (negb train) w' = obj_count (negb train) w /\
    forall kind,
      fs w' !! artifact_path (negb train) kind =
      fs w !! artifact_path (negb train) kind.
Proof.
  intros H5 Hne Hall Hk.
  destruct (proj2 (mapM_is_Some (extract train) images)) as [rows Hrows].
  { eapply Forall_impl; [exact Hall|]. done. }
  do 2 eexists. split; [by apply get_features_scratch|].
  unfold scratch_world, after_kmeans. cbn zeta. cbn [fs]. split.
  - rewrite !(obj_count_insert_other train _ _ _ _ []).
    destruct (fs w !! artifact_path train "k_means"); cbn [fs]; [done|].
    by rewrite (obj_count_insert_other train _ _ _ _ []).
  - intros kind.
    rewrite !lookup_insert_ne by apply artifact_path_other_split.
    destruct (fs w !! artifact_path train "k_means"); cbn [fs]; [done|].
    by rewrite lookup_insert_ne by apply artifact_path_other_split.
Qed.

Lemma get_features_other_split_untouched_witness :
  exists res w',
    get_features false Scenario.test_images Scenario.w_warm = (Ok res, w') /\
    obj_count (negb false) w' = obj_count (negb false) Scenario.w_warm /\
    forall kind,
      fs w' !! artifact_path (negb false) kind =
      fs Scenario.w_warm !! artifact_path (negb false) kind.
Proof.
  apply (get_features_other_split_untouched (E := Toy.env) false
           Scenario.test_images Scenario.w_warm).
  - assert (obj_count false Scenario.w_warm = 0) as -> by reflexivity. lia.
  - discriminate.
  - repeat constructor; eexists; reflexivity.
  - exact I.
Defined.

(** ** Decoding work of a from-scratch run *)

(** X19: a from-scratch run decodes every image exactly three times, in image
    order (texture, pattern, descriptors), and fits at most once: the trace
    grows by the [3 * len(images)] decodes, followed by one fit exactly when
    no model was cached for the split. *)
Theorem get_features_decodes_each_image_thrice `{E : External} train images w :
  obj_count train w <> 5 ->
  images <> [] ->
  Forall (fun f => is_Some (extract train f)) images ->
  vocabulary_ready train w ->
  exists res w' fits,
    get_features train images w = (Ok res, w') /\
    trace w' =
    trace w ++ (images ≫= fun f => [EvImread f; EvImread f; EvImread f]) ++ fits /\
    length (images ≫= fun f => [EvImread f; EvImread f; EvImread f]) =
    3 * length images /\
    (is_Some (fs w !! artifact_path train "k_means") -> fits = []) /\
    (fs w !! artifact_path train "k_means" = None ->
     exists descriptors, fits = [EvFit (vocabulary_k train) descriptors]).
Proof.
  intros H5 Hne Hall Hk.
  destruct (proj2 (mapM_is_Some (extract train) images)) as [rows Hrows].
  { eapply Forall_impl; [exact Hall|]. done. }
  exists (Some (ONdarray (map row_texture rows)),
          Some (ONdarray (map row_pattern rows)),
          Some (OLabels (omap row_label rows)),
          Some (ONdarray (histograms train w rows))),
    (scratch_world train images rows w),
    (match fs w !! artifact_path train "k_means" with
     | None => [EvFit (vocabulary_k train) (pooled rows)]
     | Some _ => []
     end).
  split; [by apply get_features_scratch|]. split; [|split; [|split]].
  - unfold scratch_world, after_kmeans, decodes. cbn zeta. cbn [fs trace].
    destruct (fs w !! artifact_path train "k_means"); cbn [trace].
    + by rewrite app_nil_r.
    + by rewrite <-app_assoc.
  - clear. induction images as [|f images IH]; [done|].
    cbn. rewrite IH. lia.
  - by intros [? ->].
  - intros ->. by eexists.
Qed.

Lemma get_features_decodes_each_image_thrice_witness :
  exists res w' fits,
    get_features false Scenario.test_images Scenario.w_empty = (Ok res, w') /\
    trace w' =
    trace Scenario.w_empty ++
    (Scenario.test_images ≫= fun f => [EvImread f; EvImread f; EvImread f]) ++
    fits /\
    length (Scenario.test_images ≫=
              fun f => [EvImread f; EvImread f; EvImread f]) =
    3 * length Scenario.test_images /\
    (is_Some (fs Scenario.w_empty !! artifact_path false "k_means") ->
     fits = []) /\
    (fs Scenario.w_empty !! artifact_path false "k_means" = None ->
     exists descriptors, fits = [EvFit (vocabulary_k false) descriptors]).
Proof.
  apply (get_features_decodes_each_image_thrice (E := Toy.env) false
           Scenario.test_images Scenario.w_empty).
  - assert (obj_count false Scenario.w_empty = 0) as -> by reflexivity. lia.
  - discriminate.
  - repeat constructor; eexists; reflexivity.
  - exact I.
Defined.
